(** * Revocation ledger contract (node/src/revocationTransfer.ts)

    A shallow embedding of the [AssetTransferContract] chaincode: the
    records it stores, the canonical encoding it writes, the ledger stub
    it talks to, and its transactions, followed by the properties of the
    specification that were checked against it. *)

From Stdlib Require Import ZArith Ascii String List Lia.
From stdpp Require Import gmap strings list sorting.

Set Warnings "-register-all".
Open Scope string_scope.

(** ** JavaScript values held in records *)

(** The values the contract builds, stores and parses back.  A number is
    carried as its literal text; a [Date] object by its time value in
    milliseconds since the epoch. *)
Inductive JValue : Type :=
  | JNull
  | JBool (b : bool)
  | JNumber (literal : string)
  | JString (s : string)
  | JDate (ms : Z)
  | JArray (items : list JValue)
  | JObject (fields : list (string * JValue)).

(** Structural induction that also reaches the values nested in arrays
    and objects. *)
Section JValue_ind_deep.
Variable P : JValue -> Prop.
Hypothesis Hnull : P JNull.
Hypothesis Hbool : forall b, P (JBool b).
Hypothesis Hnumber : forall n, P (JNumber n).
Hypothesis Hstring : forall s, P (JString s).
Hypothesis Hdate : forall ms, P (JDate ms).
Hypothesis Harray : forall xs, Forall P xs -> P (JArray xs).
Hypothesis Hobject : forall fs, Forall (fun kv => P (snd kv)) fs -> P (JObject fs).

Fixpoint JValue_ind_deep (v : JValue) : P v :=
  match v with
  | JNull => Hnull
  | JBool b => Hbool b
  | JNumber n => Hnumber n
  | JString s => Hstring s
  | JDate ms => Hdate ms
  | JArray xs =>
      Harray xs
        ((fix go (l : list JValue) : Forall P l :=
            match l with
            | [] => List.Forall_nil P
            | x :: l' => @List.Forall_cons _ P x l' (JValue_ind_deep x) (go l')
            end) xs)
  | JObject fs =>
      Hobject fs
        ((fix go (l : list (string * JValue)) : Forall (fun kv => P (snd kv)) l :=
            match l with
            | [] => List.Forall_nil _
            | (k, x) :: l' => @List.Forall_cons _ _ (k, x) l' (JValue_ind_deep x) (go l')
            end) fs)
  end.
End JValue_ind_deep.

(** ** Text helpers *)

Definition dquote : string := String "034" EmptyString.

Definition digit_char (d : Z) : ascii :=
  ascii_of_N (Z.to_N (if d <? 10 then 48 + d else 87 + d))%Z.

(** [render_base b fuel n] writes the non-negative [n] in base [b],
    lower-case digits, most significant first. *)
Fixpoint render_base (b : Z) (fuel : nat) (n : Z) (acc : string) : string :=
  match fuel with
  | O => acc
  | S fuel' =>
      let acc' := String (digit_char (n mod b)) acc in
      if (n / b =? 0)%Z then acc' else render_base b fuel' (n / b) acc'
  end.

Definition to_base (b : Z) (n : Z) : string :=
  render_base b (S (Z.to_nat (Z.log2 n))) n EmptyString.

(** Decimal text of [n], left-padded with zeros to [width] characters. *)
Fixpoint pad_zeros (k : nat) (s : string) : string :=
  match k with
  | O => s
  | S k' => pad_zeros k' (String "0"%char s)
  end.

Definition padded (width : nat) (n : Z) : string :=
  let s := to_base 10 n in
  pad_zeros (width - String.length s) s.

Definition hex2 (c : ascii) : string :=
  let n := Z.of_N (N_of_ascii c) in
  String (digit_char (n / 16)) (String (digit_char (n mod 16)) EmptyString).

(** ** Dates *)

(** [Date.prototype.toISOString]: the UTC calendar fields of a time value.
    Years outside 0..9999 are written with a sign and six digits. *)
Definition toISOString (ms : Z) : string :=
  let days := (ms / 86400000)%Z in
  let tod := (ms mod 86400000)%Z in
  let z := (days + 719468)%Z in
  let era := (z / 146097)%Z in
  let doe := (z mod 146097)%Z in
  let yoe := ((doe - doe / 1460 + doe / 36524 - doe / 146096) / 365)%Z in
  let doy := (doe - (365 * yoe + yoe / 4 - yoe / 100))%Z in
  let mp := ((5 * doy + 2) / 153)%Z in
  let d := (doy - (153 * mp + 2) / 5 + 1)%Z in
  let m := (if mp <? 10 then mp + 3 else mp - 9)%Z in
  let y := (yoe + era * 400 + (if m <=? 2 then 1 else 0))%Z in
  let year :=
    if ((0 <=? y) && (y <=? 9999))%Z then padded 4 y
    else (if (y <? 0)%Z then "-" else "+") +:+ padded 6 (Z.abs y) in
  year +:+ "-" +:+ padded 2 m +:+ "-" +:+ padded 2 d +:+ "T"
    +:+ padded 2 (tod / 3600000) +:+ ":"
    +:+ padded 2 (tod mod 3600000 / 60000) +:+ ":"
    +:+ padded 2 (tod mod 60000 / 1000) +:+ "."
    +:+ padded 3 (tod mod 1000) +:+ "Z".

(** ** JSON text *)

(** The quoting of [JSON.stringify]: quote, backslash and the control
    characters are escaped, every other byte is copied. *)
Definition escape_char (c : ascii) : string :=
  let n := N_of_ascii c in
  if (n =? 34)%N then String "\" dquote
  else if (n =? 92)%N then "\\"
  else if (n =? 8)%N then "\b"
  else if (n =? 12)%N then "\f"
  else if (n =? 10)%N then "\n"
  else if (n =? 13)%N then "\r"
  else if (n =? 9)%N then "\t"
  else if (n <? 32)%N then "\u00" +:+ hex2 c
  else String c EmptyString.

Fixpoint escape (s : string) : string :=
  match s with
  | EmptyString => EmptyString
  | String c s' => escape_char c +:+ escape s'
  end.

Definition quote (s : string) : string := dquote +:+ escape s +:+ dquote.

Fixpoint join (sep : string) (parts : list string) : string :=
  match parts with
  | [] => EmptyString
  | [p] => p
  | p :: rest => p +:+ sep +:+ join sep rest
  end.

(** [JSON.stringify] without indentation: properties in the order the
    object holds them. *)
Fixpoint JSON_stringify (v : JValue) : string :=
  match v with
  | JNull => "null"
  | JBool true => "true"
  | JBool false => "false"
  | JNumber n => n
  | JString s => quote s
  | JDate ms => quote (toISOString ms)
  | JArray xs => "[" +:+ join "," (map JSON_stringify xs) +:+ "]"
  | JObject fs =>
      "{" +:+ join "," (map (fun kv => quote (fst kv) +:+ ":" +:+ JSON_stringify (snd kv)) fs)
          +:+ "}"
  end.

(** ** Canonical encoding *)

(** Fields are ordered by their names, compared character by character. *)
Definition key_le (a b : string * JValue) : Prop := String.le (fst a) (fst b).

#[global] Instance key_le_dec : RelDecision key_le.
Proof. intros a b. unfold key_le. apply _. Defined.

(** Modelled from the spec: the package [sort-keys-recursive] is not part
    of the repository.  The keys of every mapping are sorted at every
    level of nesting; arrays keep the order of their elements. *)
Fixpoint sortKeysRecursive (v : JValue) : JValue :=
  match v with
  | JArray xs => JArray (map sortKeysRecursive xs)
  | JObject fs =>
      JObject (merge_sort key_le (map (fun kv => (fst kv, sortKeysRecursive (snd kv))) fs))
  | _ => v
  end.

(** Modelled from the spec: the package [json-stringify-deterministic] is
    not part of the repository.  It serializes like [JSON.stringify],
    without whitespace, visiting the keys of every mapping in sorted
    order. *)
Definition stringify (v : JValue) : string :=
  JSON_stringify (sortKeysRecursive v).

(** The bytes the contract stores for a record:
    [Buffer.from(stringify(sortKeysRecursive(record)))]. *)
Definition encode (record : JValue) : string :=
  stringify (sortKeysRecursive record).

(** ** Parsing JSON text *)

(** [JSON.parse] is a built-in of the language; the contract uses it to
    read back what a range scan returns.  The parser below follows the
    JSON grammar.  Text is UTF-8; a [\u] escape is turned into the bytes
    of its code point, a surrogate pair into one code point. *)

Definition is_ws (c : ascii) : bool :=
  let n := N_of_ascii c in
  ((n =? 32) || (n =? 9) || (n =? 10) || (n =? 13))%N.

Fixpoint skip_ws (s : string) : string :=
  match s with
  | String c s' => if is_ws c then skip_ws s' else s
  | EmptyString => s
  end.

Definition is_digit (c : ascii) : bool :=
  let n := N_of_ascii c in ((48 <=? n) && (n <=? 57))%N.

Fixpoint span_digits (s : string) : string * string :=
  match s with
  | String c s' =>
      if is_digit c then let '(d, r) := span_digits s' in (String c d, r)
      else (EmptyString, s)
  | EmptyString => (EmptyString, EmptyString)
  end.

Definition hex_value (c : ascii) : option N :=
  let n := N_of_ascii c in
  if ((48 <=? n) && (n <=? 57))%N then Some (n - 48)%N
  else if ((65 <=? n) && (n <=? 70))%N then Some (n - 55)%N
  else if ((97 <=? n) && (n <=? 102))%N then Some (n - 87)%N
  else None.

Definition simple_escape (e : ascii) : option ascii :=
  let n := N_of_ascii e in
  if ((n =? 34) || (n =? 92) || (n =? 47))%N then Some e
  else if (n =? 98)%N then Some "008"%char
  else if (n =? 102)%N then Some "012"%char
  else if (n =? 110)%N then Some "010"%char
  else if (n =? 114)%N then Some "013"%char
  else if (n =? 116)%N then Some "009"%char
  else None.

(** The characters of a string literal after its opening quote: bytes
    copied from the text, and the code units written as [\uXXXX]. *)
Fixpoint scan_string (s : string) : option (list (ascii + N) * string) :=
  match s with
  | EmptyString => None
  | String c rest =>
      let n := N_of_ascii c in
      if (n =? 34)%N then Some ([], rest)
      else if (n <? 32)%N then None
      else if (n =? 92)%N then
        match rest with
        | EmptyString => None
        | String e rest1 =>
            if (N_of_ascii e =? 117)%N then
              match rest1 with
              | String h1 (String h2 (String h3 (String h4 rest2))) =>
                  match hex_value h1, hex_value h2, hex_value h3, hex_value h4 with
                  | Some a, Some b, Some c', Some d =>
                      match scan_string rest2 with
                      | Some (us, r) => Some (inr (((a * 16 + b) * 16 + c') * 16 + d)%N :: us, r)
                      | None => None
                      end
                  | _, _, _, _ => None
                  end
              | _ => None
              end
            else
              match simple_escape e, scan_string rest1 with
              | Some x, Some (us, r) => Some (inl x :: us, r)
              | _, _ => None
              end
        end
      else
        match scan_string rest with
        | Some (us, r) => Some (inl c :: us, r)
        | None => None
        end
  end.

Definition byte (n : N) : ascii := ascii_of_N n.

Definition utf8 (cp : N) : string :=
  (if cp <? 128 then String (byte cp) EmptyString
   else if cp <? 2048 then
     String (byte (192 + cp / 64)) (String (byte (128 + cp mod 64)) EmptyString)
   else if cp <? 65536 then
     String (byte (224 + cp / 4096))
       (String (byte (128 + cp / 64 mod 64)) (String (byte (128 + cp mod 64)) EmptyString))
   else
     String (byte (240 + cp / 262144))
       (String (byte (128 + cp / 4096 mod 64))
          (String (byte (128 + cp / 64 mod 64))
             (String (byte (128 + cp mod 64)) EmptyString))))%N.

Definition is_high_surrogate (u : N) : bool := ((55296 <=? u) && (u <=? 56319))%N.
Definition is_low_surrogate (u : N) : bool := ((56320 <=? u) && (u <=? 57343))%N.

Fixpoint units_to_string (us : list (ascii + N)) : string :=
  match us with
  | [] => EmptyString
  | inl c :: rest => String c (units_to_string rest)
  | inr hi :: rest =>
      match rest with
      | inr lo :: rest' =>
          if is_high_surrogate hi && is_low_surrogate lo
          then utf8 (65536 + (hi - 55296) * 1024 + (lo - 56320))%N +:+ units_to_string rest'
          else utf8 hi +:+ units_to_string rest
      | _ => utf8 hi +:+ units_to_string rest
      end
  end.

Fixpoint strip_prefix (p s : string) : option string :=
  match p, s with
  | EmptyString, _ => Some s
  | String a p', String b s' => if Ascii.eqb a b then strip_prefix p' s' else None
  | String _ _, EmptyString => None
  end.

(** A number literal: sign, integer part without a leading zero,
    fraction, exponent.  The result is the literal and the rest. *)
Definition scan_number (s : string) : option (string * string) :=
  let '(sign, s1) :=
    match s with
    | String c r => if Ascii.eqb c "-" then ("-", r) else (EmptyString, s)
    | EmptyString => (EmptyString, s)
    end in
  let '(int, s2) :=
    match s1 with
    | String c r => if Ascii.eqb c "0" then ("0", r) else span_digits s1
    | EmptyString => (EmptyString, s1)
    end in
  if String.eqb int EmptyString then None else
  let frac :=
    match s2 with
    | String c r =>
        if Ascii.eqb c "." then
          let '(d, r') := span_digits r in
          if String.eqb d EmptyString then None else Some ("." +:+ d, r')
        else Some (EmptyString, s2)
    | EmptyString => Some (EmptyString, s2)
    end in
  match frac with
  | None => None
  | Some (fr, s3) =>
      match s3 with
      | String c r =>
          if Ascii.eqb c "e" || Ascii.eqb c "E" then
            let '(sg, r1) :=
              match r with
              | String x r0 =>
                  if Ascii.eqb x "+" || Ascii.eqb x "-"
                  then (String x EmptyString, r0) else (EmptyString, r)
              | EmptyString => (EmptyString, r)
              end in
            let '(d, r2) := span_digits r1 in
            if String.eqb d EmptyString then None
            else Some (sign +:+ int +:+ fr +:+ String c sg +:+ d, r2)
          else Some (sign +:+ int +:+ fr, s3)
      | EmptyString => Some (sign +:+ int +:+ fr, s3)
      end
  end.

(** Assigning a property: an existing key keeps its place and takes the
    new value, a new key goes last. *)
Fixpoint set_field (k : string) (v : JValue) (fs : list (string * JValue))
    : list (string * JValue) :=
  match fs with
  | [] => [(k, v)]
  | (k', v') :: fs' =>
      if String.eqb k k' then (k', v) :: fs' else (k', v') :: set_field k v fs'
  end.

Fixpoint parse_value (fuel : nat) (s : string) : option (JValue * string) :=
  match fuel with
  | O => None
  | S fuel' =>
      match skip_ws s with
      | EmptyString => None
      | String c rest =>
          if Ascii.eqb c "{" then
            match skip_ws rest with
            | String c' r =>
                if Ascii.eqb c' "}" then Some (JObject [], r)
                else parse_members fuel' [] (String c' r)
            | EmptyString => None
            end
          else if Ascii.eqb c "[" then
            match skip_ws rest with
            | String c' r =>
                if Ascii.eqb c' "]" then Some (JArray [], r)
                else parse_elements fuel' [] (String c' r)
            | EmptyString => None
            end
          else if Ascii.eqb c "034" then
            match scan_string rest with
            | Some (us, r) => Some (JString (units_to_string us), r)
            | None => None
            end
          else if Ascii.eqb c "t" then
            option_map (fun r => (JBool true, r)) (strip_prefix "rue" rest)
          else if Ascii.eqb c "f" then
            option_map (fun r => (JBool false, r)) (strip_prefix "alse" rest)
          else if Ascii.eqb c "n" then
            option_map (fun r => (JNull, r)) (strip_prefix "ull" rest)
          else
            option_map (fun '(lit, r) => (JNumber lit, r)) (scan_number (String c rest))
      end
  end
with parse_elements (fuel : nat) (acc : list JValue) (s : string)
    : option (JValue * string) :=
  match fuel with
  | O => None
  | S fuel' =>
      match parse_value fuel' s with
      | None => None
      | Some (v, r) =>
          match skip_ws r with
          | String c r' =>
              if Ascii.eqb c "," then parse_elements fuel' (acc ++ [v]) r'
              else if Ascii.eqb c "]" then Some (JArray (acc ++ [v]), r')
              else None
          | EmptyString => None
          end
      end
  end
with parse_members (fuel : nat) (acc : list (string * JValue)) (s : string)
    : option (JValue * string) :=
  match fuel with
  | O => None
  | S fuel' =>
      match skip_ws s with
      | EmptyString => None
      | String q r0 =>
          if negb (Ascii.eqb q "034") then None else
          match scan_string r0 with
          | None => None
          | Some (us, r1) =>
              match skip_ws r1 with
              | EmptyString => None
              | String colon r2 =>
                  if negb (Ascii.eqb colon ":") then None else
                  match parse_value fuel' r2 with
                  | None => None
                  | Some (v, r3) =>
                      let acc' := set_field (units_to_string us) v acc in
                      match skip_ws r3 with
                      | String c r4 =>
                          if Ascii.eqb c "," then parse_members fuel' acc' r4
                          else if Ascii.eqb c "}" then Some (JObject acc', r4)
                          else None
                      | EmptyString => None
                      end
                  end
              end
          end
      end
  end.

Definition JSON_parse (text : string) : option JValue :=
  match parse_value (2 * String.length text + 2) text with
  | Some (v, rest) =>
      match skip_ws rest with
      | EmptyString => Some v
      | String _ _ => None
      end
  | None => None
  end.

(** Reading a property of a parsed value.  Only an object has properties
    of its own under the names the contract asks for; strings, numbers,
    booleans and arrays answer [undefined] ([None]).  [null] has no
    properties at all: reading one is a [TypeError]. *)
Fixpoint lookup_field (name : string) (fs : list (string * JValue)) : option JValue :=
  match fs with
  | [] => None
  | (k, v) :: fs' => if String.eqb name k then Some v else lookup_field name fs'
  end.

(** ** Failures *)

(** The contract throws plain [Error] objects; they are told apart here
    by the place that throws them.  [ReferenceError] and [TypeError] are
    raised by the language itself. *)
Inductive Failure : Type :=
  | NotFound (message : string)
  | AlreadyExists (message : string)
  | ReferenceError (identifier : string)
  | TypeError (message : string).

Inductive Outcome (A : Type) : Type :=
  | Returned (a : A)
  | Thrown (e : Failure).
Arguments Returned {A} a.
Arguments Thrown {A} e.

(** ** The ledger stub *)

Inductive StubCall : Type :=
  | PutState (key value : string)
  | DeleteState (key : string).

(** What a transaction sees of [ctx.stub]: the world state, and the
    writes and deletes it has issued so far. *)
Record Stub : Type := mkStub {
  worldState : gmap string string;
  calls : list StubCall
}.

(** A transaction of the contract: it runs against the stub and either
    returns or throws. *)
Definition Tx (A : Type) : Type := Stub -> Outcome A * Stub.

#[global] Instance Tx_ret : MRet Tx := fun A a st => (Returned a, st).

#[global] Instance Tx_bind : MBind Tx := fun A B f m st =>
  match m st with
  | (Returned a, st') => f a st'
  | (Thrown e, st') => (Thrown e, st')
  end.

Definition throw {A : Type} (e : Failure) : Tx A := fun st => (Thrown e, st).

(** Modelled from the spec: the stub of [fabric-contract-api] is not part
    of the repository.  [getState] answers the empty buffer for an absent
    key, [putState] writes unconditionally, [deleteState] removes the key,
    and a write is visible to the reads that follow it. *)
Definition getState (key : string) : Tx string :=
  fun st => (Returned (default EmptyString (worldState st !! key)), st).

Definition putState (key value : string) : Tx unit :=
  fun st => (Returned tt, {| worldState := <[key := value]> (worldState st);
                             calls := calls st ++ [PutState key value] |}).

Definition deleteState (key : string) : Tx unit :=
  fun st => (Returned tt, {| worldState := delete key (worldState st);
                             calls := calls st ++ [DeleteState key] |}).

Definition entry_le (a b : string * string) : Prop := String.le (fst a) (fst b).

#[global] Instance entry_le_dec : RelDecision entry_le.
Proof. intros a b. unfold entry_le. apply _. Defined.

Definition in_range (startKey endKey key : string) : bool :=
  String.leb startKey key && (String.eqb endKey EmptyString || String.ltb key endKey).

(** Modelled from the spec: a range scan yields the entries whose keys
    lie between the bounds in key order; empty bounds scan the whole
    keyspace. *)
Definition getStateByRange (startKey endKey : string) : Tx (list (string * string)) :=
  fun st =>
    (Returned (merge_sort entry_le
                 (filter (fun kv => in_range startKey endKey (fst kv) = true)
                         (map_to_list (worldState st)))), st).

Definition get_property (name : string) (v : JValue) : Tx (option JValue) :=
  match v with
  | JNull => throw (TypeError "Cannot read properties of null")
  | JObject fs => mret (lookup_field name fs)
  | _ => mret None
  end.

Fixpoint for_each {A : Type} (xs : list A) (body : A -> Tx unit) : Tx unit :=
  match xs with
  | [] => mret tt
  | x :: xs' => body x ;; for_each xs' body
  end.

(** ** Calls that are not awaited *)

(** [Deployment] and [Revoke] call the [async] method [CreateAsset]
    without [await].  Such a call runs up to its first suspension, here
    the [getState] of [TransactionExists]; the caller then goes on, and
    the rest of the call runs once the caller is itself suspended on its
    next stub call or has thrown.  Its promise is discarded, so a
    rejection does not reach the caller.  Whether a write the rest of the
    call issues still belongs to the unit of work is not decided by the
    contract: it [Settles] in it, or it is [Dropped]. *)
Inductive Detached : Type := Settles | Dropped.

Definition resume_detached {A : Type} (fate : Detached) (rest : Tx A) (st : Stub) : Stub :=
  let st' := snd (rest st) in
  match fate with
  | Settles => st'
  | Dropped => {| worldState := worldState st; calls := calls st' |}
  end.

(** [unawaited fate rest next]: the caller performs [next], the statement
    after the call, and [rest] runs behind it. *)
Definition unawaited {A B : Type} (fate : Detached) (rest : Tx A) (next : Tx B) : Tx B :=
  fun st => let '(r, st1) := next st in (r, resume_detached fate rest st1).

(** An identifier that no declaration binds. *)
Definition unbound {A : Type} (identifier : string) : Tx A :=
  throw (ReferenceError identifier).

(** ** Module-level definitions of the contract *)

Record Timestamp : Type := { seconds_low : Z; nanos : Z }.

Definition TIMESTAMP : Timestamp :=
  {| seconds_low := 1659172409; nanos := 567000000 |}.

(** [toDate]: the time value in milliseconds,
    [(seconds.low + nanos / 1000000 / 1000) * 1000], here in whole
    milliseconds.  The contract applies it to [TIMESTAMP] only, where the
    floating-point evaluation gives the same integer, 1659172409567. *)
Definition toDate (timestamp : Timestamp) : Z :=
  (seconds_low timestamp * 1000 + nanos timestamp / 1000000)%Z.

Definition date : Z := toDate TIMESTAMP.

(** What [generateUniqueId] reads from outside the ledger: the clock
    [Date.now()] and the text of [Math.random().toString(36)]. *)
Record Entropy : Type := { now : Z; random36 : string }.

Fixpoint substr (start : nat) (s : string) : string :=
  match start, s with
  | S n, String _ s' => substr n s'
  | _, _ => s
  end.

Definition generateUniqueId (env : Entropy) : string :=
  to_base 36 (now env) +:+ substr 2 (random36 env).

Record Revocation : Type := {
  targetDeploymentID : string;
  reason : string;
  RevocationID : string
}.

Definition Revocation_object (r : Revocation) : JValue :=
  JObject [("targetDeploymentID", JString (targetDeploymentID r));
           ("reason", JString (reason r));
           ("RevocationID", JString (RevocationID r))].

(** The object literals of [Deployment], [CreateAsset] and [Revoke], with
    their properties in the order they are written. *)
Definition deployment_object (deploymentID comment authorID payload : string) : JValue :=
  JObject [("deploymentID", JString deploymentID);
           ("comment", JString comment);
           ("authorID", JString authorID);
           ("payload", JString payload)].

Definition transactionLog_object (ID authorID : string) (time : Z) (description : string)
    : JValue :=
  JObject [("transactionID", JString ID);
           ("authorID", JString authorID);
           ("time", JDate time);
           ("description", JString description)].

Definition revocation_object (deploymentID reason id : string) : JValue :=
  JObject [("targetDeploymentID", JString deploymentID);
           ("reason", JString reason);
           ("revocationID", JString id)].

(** ** The transactions of [AssetTransferContract] *)

Definition InitLedger : Tx unit :=
  let revocations :=
    [ {| targetDeploymentID := "123"; reason := "example"; RevocationID := "1" |} ] in
  for_each revocations (fun revocation =>
    putState (RevocationID revocation) (encode (Revocation_object revocation))).

Definition GetRevocationByID (RevocationID : string) : Tx string :=
  assetJSON ← getState RevocationID;
  if (String.length assetJSON =? 0)%nat
  then throw (NotFound ("The asset " +:+ RevocationID +:+ " does not exist"))
  else mret assetJSON.

Definition ValidateRevocation (RevocationID : string) : Tx bool :=
  assetJSON ← getState RevocationID;
  mret (0 <? String.length assetJSON)%nat.

(** The record a scanned value stands for: the parsed value, or the text
    itself when it does not parse. *)
Definition parse_or_raw (strValue : string) : JValue :=
  match JSON_parse strValue with
  | Some record => record
  | None => JString strValue
  end.

(** The loop of [GetAllRevocations] over the iterator: [allResults]. *)
Fixpoint collect (field : string) (entries : list (string * string)) : Tx (list JValue) :=
  match entries with
  | [] => mret []
  | (_, strValue) :: rest =>
      let record := parse_or_raw strValue in
      p ← get_property field record;
      allResults ← collect field rest;
      mret (if p is Some _ then record :: allResults else allResults)
  end.

Definition GetAllRevocations_results : Tx (list JValue) :=
  iterator ← getStateByRange EmptyString EmptyString;
  collect "RevocationID" iterator.

Definition GetAllRevocations : Tx string :=
  allResults ← GetAllRevocations_results;
  mret (JSON_stringify (JArray allResults)).

Definition ValidateDeployment (deploymentID : string) : Tx bool :=
  deploymentJSON ← getState deploymentID;
  mret (0 <? String.length deploymentJSON)%nat.

Definition GetDeploymentByID (deploymentID : string) : Tx string :=
  deploymentJSON ← getState deploymentID;
  if (String.length deploymentJSON =? 0)%nat
  then throw (NotFound ("The asset " +:+ deploymentID +:+ " does not exist"))
  else mret deploymentJSON.

Definition TransactionExists (id : string) : Tx bool :=
  transactionJSON ← getState id;
  mret (0 <? String.length transactionJSON)%nat.

(** [CreateAsset] after its first suspension, with the answer of
    [TransactionExists] in hand. *)
Definition CreateAsset_resume (exists_ : bool) (ID authorID : string) (time : Z)
    (description : string) : Tx unit :=
  if exists_ then throw (AlreadyExists ("The asset " +:+ ID +:+ " already exists"))
  else
    let transactionLog := transactionLog_object ID authorID time description in
    putState ID (encode transactionLog).

Definition CreateAsset (ID authorID : string) (time : Z) (description : string) : Tx unit :=
  exists_ ← TransactionExists ID;
  CreateAsset_resume exists_ ID authorID time description.

(** [Revoke].  The call of [CreateAsset] is not awaited.  The key of the
    following [putState] is the identifier [eploymentID], which nothing
    binds. *)
Definition Revoke (env : Entropy) (fate : Detached)
    (deploymentID reason authorID : string) : Tx unit :=
  exists_ ← ValidateDeployment deploymentID;
  if negb exists_
  then throw (NotFound "The does not exist, or already has been revoked")
  else
    let id := generateUniqueId env in
    let revocation := revocation_object deploymentID reason id in
    logged ← TransactionExists deploymentID;
    unawaited fate (CreateAsset_resume logged deploymentID authorID date reason)
      (key ← @unbound string "eploymentID";
       putState key (encode revocation)) ;;
    deleteState deploymentID.

(** [Deployment].  The call of [CreateAsset] is not awaited. *)
Definition Deployment (fate : Detached)
    (authorID comment payload deploymentID : string) : Tx unit :=
  exists_ ← ValidateDeployment deploymentID;
  if (exists_ : bool)
  then throw (AlreadyExists ("The asset " +:+ deploymentID +:+ " already exists"))
  else
    let deployment := deployment_object deploymentID comment authorID payload in
    logged ← TransactionExists deploymentID;
    unawaited fate (CreateAsset_resume logged deploymentID authorID date comment)
      (putState deploymentID (encode deployment)).

Definition ReadAsset (id : string) : Tx string :=
  transactionLogJSON ← getState id;
  if (String.length transactionLogJSON =? 0)%nat
  then throw (NotFound ("The log of a transaction with an ID of " +:+ id +:+ " does not exist"))
  else mret transactionLogJSON.

Definition GetAllTransactionLogs_results : Tx (list JValue) :=
  iterator ← getStateByRange EmptyString EmptyString;
  collect "transactionID" iterator.

Definition GetAllTransactionLogs : Tx string :=
  allResults ← GetAllTransactionLogs_results;
  mret (JSON_stringify (JArray allResults)).

(** ** Units of work *)

(** The dispatcher runs a transaction against the committed ledger and
    commits what it wrote when it returns; when it throws, nothing is
    committed. *)
Definition invoke {A : Type} (tx : Tx A) (ledger : gmap string string)
    : Outcome A * gmap string string :=
  let '(r, st) := tx {| worldState := ledger; calls := [] |} in
  match r with
  | Returned _ => (r, worldState st)
  | Thrown _ => (r, ledger)
  end.

(** The stub calls a transaction issues on a ledger. *)
Definition issued {A : Type} (tx : Tx A) (ledger : gmap string string) : list StubCall :=
  calls (snd (tx {| worldState := ledger; calls := [] |})).

(** The write operations a client can submit. *)
Inductive Operation : Type :=
  | OpInitLedger
  | OpDeployment (fate : Detached) (authorID comment payload deploymentID : string)
  | OpRevoke (env : Entropy) (fate : Detached) (deploymentID reason authorID : string)
  | OpCreateAsset (ID authorID : string) (time : Z) (description : string).

Definition transaction (op : Operation) : Tx unit :=
  match op with
  | OpInitLedger => InitLedger
  | OpDeployment fate a c p d => Deployment fate a c p d
  | OpRevoke env fate d r a => Revoke env fate d r a
  | OpCreateAsset i a t ds => CreateAsset i a t ds
  end.

Definition commit (op : Operation) (ledger : gmap string string) : gmap string string :=
  snd (invoke (transaction op) ledger).

Inductive reachable : gmap string string -> Prop :=
  | reachable_empty : reachable ∅
  | reachable_commit ledger op : reachable ledger -> reachable (commit op ledger).

(** ** The second copy of the contract (unnamed source file)

    An earlier copy of [AssetTransferContract]: it has no transaction log,
    [InitLedger] also seeds five deployments, and [GetAllRevocations]
    returns every scanned record. *)
Module Part000.

Record DeploymentRecord : Type := {
  authorID : string;
  deploymentID : string;
  comment : string;
  payload : string
}.

Definition DeploymentRecord_object (d : DeploymentRecord) : JValue :=
  JObject [("authorID", JString (authorID d));
           ("deploymentID", JString (deploymentID d));
           ("comment", JString (comment d));
           ("payload", JString (payload d))].

Definition InitLedger : Tx unit :=
  let revocations :=
    [ {| targetDeploymentID := "123"; reason := "example"; RevocationID := "1" |} ] in
  for_each revocations (fun revocation =>
    putState (RevocationID revocation) (encode (Revocation_object revocation))) ;;
  let deployment :=
    [ {| authorID := "1111"; deploymentID := "0000"; comment := "Hello"; payload := "sodjfo" |};
      {| authorID := "2222"; deploymentID := "9999"; comment := "Hey"; payload := "kajsnf" |};
      {| authorID := "3333"; deploymentID := "8888"; comment := "Hi"; payload := "khklhl" |};
      {| authorID := "4444"; deploymentID := "7777"; comment := "Hola"; payload := "nknjnk" |};
      {| authorID := "5555"; deploymentID := "6666"; comment := "Aloha"; payload := "lrterw" |} ] in
  for_each deployment (fun asset =>
    putState (deploymentID asset) (encode (DeploymentRecord_object asset))).

Definition GetAllRevocations_results : Tx (list JValue) :=
  iterator ← getStateByRange EmptyString EmptyString;
  mret (map (fun kv => parse_or_raw (snd kv)) iterator).

Definition GetAllRevocations : Tx string :=
  allResults ← GetAllRevocations_results;
  mret (JSON_stringify (JArray allResults)).

(** [Deployment] of this copy: create-if-absent, without a log entry. *)
Definition Deployment (authorID comment payload deploymentID : string) : Tx unit :=
  exists_ ← ValidateDeployment deploymentID;
  if (exists_ : bool)
  then throw (AlreadyExists ("The asset " +:+ deploymentID +:+ " already exists"))
  else
    let deployment := deployment_object deploymentID comment authorID payload in
    putState deploymentID (encode deployment).

(** [RevokeDeployment]: delete the deployment from the ledger. *)
Definition RevokeDeployment (deploymentID : string) : Tx unit :=
  deploymentExists ← ValidateDeployment deploymentID;
  if negb deploymentExists
  then throw (NotFound ("Deployment with ID " +:+ deploymentID +:+ " does not exist"))
  else deleteState deploymentID.

End Part000.

(** ** Reading records back *)

(** The property of a record, [undefined] ([None]) when it has none. *)
Definition field (name : string) (record : JValue) : option JValue :=
  match record with
  | JObject fs => lookup_field name fs
  | _ => None
  end.

(** A stored value counts as a record of a kind when it parses to a value
    that has the identifying property of the kind, which is how the
    listings of the contract tell the kinds apart. *)
Definition holds (identifying : string) (value : string) : Prop :=
  is_Some (field identifying (parse_or_raw value)).

#[global] Instance holds_dec identifying value : Decision (holds identifying value).
Proof. unfold holds. apply _. Defined.

(** What a state holds under a key, the way the existence checks read
    it: present and not empty. *)
Definition present (ledger : gmap string string) (key : string) : bool :=
  (0 <? String.length (default EmptyString (ledger !! key)))%nat.

(** The entries a full range scan yields, in key order. *)
Definition scan (ledger : gmap string string) : list (string * string) :=
  merge_sort entry_le (map_to_list ledger).

Definition is_null (v : JValue) : bool :=
  match v with
  | JNull => true
  | _ => false
  end.

(** ** Records that differ in the order of their fields *)

(** A JavaScript object has each of its keys once; so has every object
    nested in it. *)
Fixpoint distinct_keys (v : JValue) : bool :=
  match v with
  | JArray xs => forallb distinct_keys xs
  | JObject fs =>
      bool_decide (NoDup (map fst fs)) && forallb (fun kv => distinct_keys (snd kv)) fs
  | _ => true
  end.

(** [reordered v w]: [w] is [v] with the fields of its mappings, at any
    depth, taken in another order.  Arrays keep their order. *)
Inductive reordered : JValue -> JValue -> Prop :=
  | reordered_null : reordered JNull JNull
  | reordered_bool b : reordered (JBool b) (JBool b)
  | reordered_number n : reordered (JNumber n) (JNumber n)
  | reordered_string s : reordered (JString s) (JString s)
  | reordered_date ms : reordered (JDate ms) (JDate ms)
  | reordered_array xs ys :
      Forall2 reordered xs ys -> reordered (JArray xs) (JArray ys)
  | reordered_object fs gs hs :
      Forall2 (fun a b => fst a = fst b /\ reordered (snd a) (snd b)) fs gs ->
      Permutation gs hs ->
      reordered (JObject fs) (JObject hs).

(** ** Sample inputs *)

(** A reading of the clock and of the random source. *)
Definition sample_entropy : Entropy :=
  {| now := 1659172409567; random36 := "0.4fzyo82mvyr" |}.

(** The ledger after [Deployment("A1","hello","payload","D1")] on the
    empty ledger, with the deployment record under ["D1"]. *)
Definition ledger_with_D1 : gmap string string :=
  commit (OpDeployment Dropped "A1" "hello" "payload" "D1") ∅.

(** ** Shapes of stored values *)

(** The text of an encoded object: it opens with a brace. *)
Definition object_text (value : string) : Prop :=
  exists rest, value = String "{" rest.

(** A stub call that writes. *)
Definition is_put (c : StubCall) : Prop :=
  match c with
  | PutState _ _ => True
  | DeleteState _ => False
  end.

(** ** Flat records *)

(** The text of a scalar the contract stores in a record: a string, or a
    date, which is written as its ISO text. *)
Definition scalar_text (v : JValue) : option string :=
  match v with
  | JString s => Some s
  | JDate ms => Some (toISOString ms)
  | _ => None
  end.

(** The members of an object text whose values are all strings. *)
Definition members_text (kvs : list (string * string)) : string :=
  join "," (map (fun kv => quote (fst kv) +:+ ":" +:+ quote (snd kv)) kvs).

(** The object [JSON.parse] builds from such members, one assignment
    after the other. *)
Definition assign_all (kvs : list (string * string)) (acc : list (string * JValue))
    : list (string * JValue) :=
  fold_left (fun acc kv => set_field (fst kv) (JString (snd kv)) acc) kvs acc.

(** * Properties *)

(** ** How the transactions run *)

Lemma run_ValidateDeployment d st :
  ValidateDeployment d st = (Returned (present (worldState st) d), st).
Proof. reflexivity. Qed.

Lemma run_TransactionExists id st :
  TransactionExists id st = (Returned (present (worldState st) id), st).
Proof. reflexivity. Qed.

Lemma invoke_ValidateDeployment d ledger :
  fst (invoke (ValidateDeployment d) ledger) = Returned (present ledger d).
Proof. reflexivity. Qed.

Lemma present_true_lookup ledger key :
  present ledger key = true ->
  exists value, ledger !! key = Some value /\ value <> EmptyString.
Proof.
  unfold present. destruct (ledger !! key) as [value|] eqn:E; simpl.
  - intros H. exists value. split; [done|]. intros ->. discriminate H.
  - discriminate.
Qed.

Lemma present_insert ledger key value :
  (0 <? String.length value)%nat = true -> present (<[key := value]> ledger) key = true.
Proof. intros H. unfold present. by rewrite lookup_insert_eq. Qed.

(** The encoding of an object starts with a brace, so it is never the
    empty buffer. *)
Lemma encode_object_not_empty fs : (0 <? String.length (encode (JObject fs)))%nat = true.
Proof. reflexivity. Qed.

Lemma run_Revoke_missing env fate d reason authorID st :
  present (worldState st) d = false ->
  Revoke env fate d reason authorID st
  = (Thrown (NotFound "The does not exist, or already has been revoked"), st).
Proof.
  intros H. unfold Revoke, mbind, Tx_bind.
  rewrite run_ValidateDeployment, H. reflexivity.
Qed.

Lemma run_Revoke_present env fate d reason authorID st :
  present (worldState st) d = true ->
  Revoke env fate d reason authorID st = (Thrown (ReferenceError "eploymentID"), st).
Proof.
  intros H. unfold Revoke, mbind, Tx_bind.
  rewrite run_ValidateDeployment, H. cbn [negb].
  rewrite run_TransactionExists, H.
  destruct st as [ws cs]. destruct fate; reflexivity.
Qed.

Lemma run_Deployment_present fate authorID comment payload d st :
  present (worldState st) d = true ->
  Deployment fate authorID comment payload d st
  = (Thrown (AlreadyExists ("The asset " +:+ d +:+ " already exists")), st).
Proof.
  intros H. unfold Deployment, mbind, Tx_bind.
  rewrite run_ValidateDeployment, H. reflexivity.
Qed.

Lemma run_Deployment_absent fate authorID comment payload d st :
  present (worldState st) d = false ->
  Deployment fate authorID comment payload d st
  = (Returned tt,
     {| worldState :=
          <[d := match fate with
                 | Settles => encode (transactionLog_object d authorID date comment)
                 | Dropped => encode (deployment_object d comment authorID payload)
                 end]> (worldState st);
        calls := calls st
                 ++ [PutState d (encode (deployment_object d comment authorID payload));
                     PutState d (encode (transactionLog_object d authorID date comment))] |}).
Proof.
  intros H. unfold Deployment, mbind, Tx_bind.
  rewrite run_ValidateDeployment, H.
  rewrite run_TransactionExists, H.
  destruct st as [ws cs]. unfold unawaited, resume_detached, CreateAsset_resume, putState.
  cbn [fst snd worldState calls].
  destruct fate; cbn [worldState calls]; rewrite <- app_assoc; cbn [app];
    [rewrite insert_insert_eq|]; reflexivity.
Qed.

Lemma run_CreateAsset_present ID authorID time description st :
  present (worldState st) ID = true ->
  CreateAsset ID authorID time description st
  = (Thrown (AlreadyExists ("The asset " +:+ ID +:+ " already exists")), st).
Proof.
  intros H. unfold CreateAsset, mbind, Tx_bind.
  rewrite run_TransactionExists, H. reflexivity.
Qed.

Lemma run_CreateAsset_absent ID authorID time description st :
  present (worldState st) ID = false ->
  CreateAsset ID authorID time description st
  = (Returned tt,
     {| worldState :=
          <[ID := encode (transactionLog_object ID authorID time description)]> (worldState st);
        calls := calls st
                 ++ [PutState ID (encode (transactionLog_object ID authorID time description))] |}).
Proof.
  intros H. unfold CreateAsset, mbind, Tx_bind.
  rewrite run_TransactionExists, H. reflexivity.
Qed.

Lemma run_InitLedger st :
  InitLedger st
  = (Returned tt,
     {| worldState :=
          <["1" := encode (Revocation_object
                     {| targetDeploymentID := "123"; reason := "example";
                        RevocationID := "1" |})]> (worldState st);
        calls := calls st
                 ++ [PutState "1" (encode (Revocation_object
                        {| targetDeploymentID := "123"; reason := "example";
                           RevocationID := "1" |}))] |}).
Proof. reflexivity. Qed.

(** ** Revocation *)

(** C4, as the code has it.  When the existence check answers false for
    [deploymentID], that is when the key is absent or holds the empty
    buffer, [Revoke] fails with the not-found error, the ledger is the
    same, and no write or delete has been issued: no log entry, no
    revocation record, no deletion. *)
Theorem Revoke_missing_deployment_NotFound
    (env : Entropy) (fate : Detached) (ledger : gmap string string)
    (deploymentID reason authorID : string) :
  fst (invoke (ValidateDeployment deploymentID) ledger) = Returned false ->
  invoke (Revoke env fate deploymentID reason authorID) ledger
  = (Thrown (NotFound "The does not exist, or already has been revoked"), ledger)
  /\ issued (Revoke env fate deploymentID reason authorID) ledger = []
  /\ commit (OpRevoke env fate deploymentID reason authorID) ledger = ledger.
Proof.
  rewrite invoke_ValidateDeployment. intros H.
  assert (Hp : present ledger deploymentID = false) by congruence.
  unfold commit, issued, invoke. cbn [transaction].
  rewrite run_Revoke_missing by exact Hp. done.
Qed.

Lemma Revoke_missing_deployment_NotFound_witness :
  invoke (Revoke sample_entropy Settles "D-missing" "x" "A1") ∅
  = (Thrown (NotFound "The does not exist, or already has been revoked"), ∅)
  /\ issued (Revoke sample_entropy Settles "D-missing" "x" "A1") ∅ = []
  /\ commit (OpRevoke sample_entropy Settles "D-missing" "x" "A1") ∅ = ∅.
Proof.
  apply (Revoke_missing_deployment_NotFound sample_entropy Settles ∅ "D-missing" "x" "A1").
  reflexivity.
Defined.

(** C4, as stated, fails.  The existence check of [Revoke] does not look
    at the kind of the record: after [InitLedger] key ["1"] holds the seed
    revocation and no deployment, yet [Revoke] under ["1"] passes the
    check and does not end with the not-found error. *)
Lemma Revoke_of_another_kind_is_not_NotFound :
  ~ (forall (env : Entropy) (fate : Detached) (ledger : gmap string string)
            (deploymentID reason authorID : string),
       reachable ledger ->
       (forall value, ledger !! deploymentID = Some value -> ~ holds "deploymentID" value) ->
       exists message,
         fst (invoke (Revoke env fate deploymentID reason authorID) ledger)
         = Thrown (NotFound message)).
Proof.
  intros H.
  destruct (H sample_entropy Settles (commit OpInitLedger ∅) "1" "x" "A1") as [message Hm].
  - apply reachable_commit, reachable_empty.
  - intros value Hv. vm_compute in Hv. injection Hv as <-. compute_done.
  - vm_compute in Hm. discriminate Hm.
Qed.

(** C1. [Revoke] of a deployment that exists does not succeed: the key of
    its [putState] is the unbound identifier [eploymentID], so the call
    throws before anything is written.  The ledger is unchanged and the
    deployment is still there. *)
Theorem Revoke_existing_deployment_throws
    (env : Entropy) (fate : Detached) (ledger : gmap string string)
    (deploymentID reason authorID : string) :
  fst (invoke (ValidateDeployment deploymentID) ledger) = Returned true ->
  invoke (Revoke env fate deploymentID reason authorID) ledger
  = (Thrown (ReferenceError "eploymentID"), ledger)
  /\ issued (Revoke env fate deploymentID reason authorID) ledger = []
  /\ fst (invoke (ValidateDeployment deploymentID)
            (commit (OpRevoke env fate deploymentID reason authorID) ledger))
     = Returned true.
Proof.
  rewrite invoke_ValidateDeployment. intros H.
  assert (Hp : present ledger deploymentID = true) by congruence.
  assert (Hrun : invoke (Revoke env fate deploymentID reason authorID) ledger
                 = (Thrown (ReferenceError "eploymentID"), ledger)).
  { unfold invoke. rewrite run_Revoke_present by exact Hp. reflexivity. }
  split; [exact Hrun|]. split.
  - unfold issued. rewrite run_Revoke_present by exact Hp. reflexivity.
  - unfold commit. cbn [transaction]. rewrite Hrun. cbn [snd].
    rewrite invoke_ValidateDeployment, Hp. reflexivity.
Qed.

Lemma Revoke_existing_deployment_throws_witness :
  invoke (Revoke sample_entropy Settles "D1" "bad build" "A1") ledger_with_D1
  = (Thrown (ReferenceError "eploymentID"), ledger_with_D1)
  /\ issued (Revoke sample_entropy Settles "D1" "bad build" "A1") ledger_with_D1 = []
  /\ fst (invoke (ValidateDeployment "D1")
            (commit (OpRevoke sample_entropy Settles "D1" "bad build" "A1") ledger_with_D1))
     = Returned true.
Proof.
  apply (Revoke_existing_deployment_throws sample_entropy Settles ledger_with_D1
           "D1" "bad build" "A1").
  vm_compute. reflexivity.
Defined.

(** ** Creating deployments *)

Lemma commit_Deployment_absent fate authorID comment payload d ledger :
  present ledger d = false ->
  invoke (Deployment fate authorID comment payload d) ledger
  = (Returned tt,
     <[d := match fate with
            | Settles => encode (transactionLog_object d authorID date comment)
            | Dropped => encode (deployment_object d comment authorID payload)
            end]> ledger).
Proof.
  intros H. unfold invoke. rewrite run_Deployment_absent by exact H. reflexivity.
Qed.

Lemma commit_Deployment_present fate authorID comment payload d ledger :
  present ledger d = true ->
  invoke (Deployment fate authorID comment payload d) ledger
  = (Thrown (AlreadyExists ("The asset " +:+ d +:+ " already exists")), ledger).
Proof.
  intros H. unfold invoke. rewrite run_Deployment_present by exact H. reflexivity.
Qed.

(** After [Deployment], whatever it did, the key is taken. *)
Lemma present_after_Deployment fate authorID comment payload d ledger :
  present (commit (OpDeployment fate authorID comment payload d) ledger) d = true.
Proof.
  unfold commit. cbn [transaction].
  destruct (present ledger d) eqn:H.
  - rewrite commit_Deployment_present by exact H. exact H.
  - rewrite commit_Deployment_absent by exact H. cbn [snd].
    apply present_insert. destruct fate; apply encode_object_not_empty.
Qed.

(** C5. [Deployment] under a key, followed at once by [Deployment] under
    the same key with any arguments: the second call fails with the
    already-exists error and the state after both calls is the state after
    the first. *)
Theorem Deployment_twice_AlreadyExists
    (fate1 fate2 : Detached) (ledger : gmap string string)
    (authorID1 comment1 payload1 authorID2 comment2 payload2 id : string) :
  let first := commit (OpDeployment fate1 authorID1 comment1 payload1 id) ledger in
  fst (invoke (Deployment fate2 authorID2 comment2 payload2 id) first)
  = Thrown (AlreadyExists ("The asset " +:+ id +:+ " already exists"))
  /\ commit (OpDeployment fate2 authorID2 comment2 payload2 id) first = first.
Proof.
  intros first.
  pose proof (present_after_Deployment fate1 authorID1 comment1 payload1 id ledger) as H.
  fold first in H. unfold commit at 1. cbn [transaction].
  rewrite commit_Deployment_present by exact H. done.
Qed.

(** ** Seeding *)

(** C10. From the empty state, [InitLedger] stores under key ["1"] the
    canonical encoding of the example revocation: the text
    [{"RevocationID":"1","reason":"example","targetDeploymentID":"123"}],
    which parses back to these three fields.  So [ValidateRevocation]
    answers true for ["1"] and [GetRevocationByID] returns that text.
    The same holds for the [InitLedger] of the second copy of the
    contract. *)
Theorem InitLedger_seeds_revocation :
  let q := String "034" EmptyString in
  let text :=
    "{" +:+ q +:+ "RevocationID" +:+ q +:+ ":" +:+ q +:+ "1" +:+ q +:+ ","
        +:+ q +:+ "reason" +:+ q +:+ ":" +:+ q +:+ "example" +:+ q +:+ ","
        +:+ q +:+ "targetDeploymentID" +:+ q +:+ ":" +:+ q +:+ "123" +:+ q +:+ "}" in
  let seeded := [ snd (invoke InitLedger ∅); snd (invoke Part000.InitLedger ∅) ] in
  fst (invoke InitLedger ∅) = Returned tt
  /\ fst (invoke Part000.InitLedger ∅) = Returned tt
  /\ encode (JObject [("targetDeploymentID", JString "123");
                      ("reason", JString "example");
                      ("RevocationID", JString "1")]) = text
  /\ JSON_parse text = Some (JObject [("RevocationID", JString "1");
                                      ("reason", JString "example");
                                      ("targetDeploymentID", JString "123")])
  /\ Forall (fun ledger =>
       ledger !! "1" = Some text
       /\ fst (invoke (ValidateRevocation "1") ledger) = Returned true
       /\ fst (invoke (GetRevocationByID "1") ledger) = Returned text) seeded.
Proof.
  intros q text seeded.
  split; [reflexivity|]. split; [reflexivity|].
  split; [vm_compute; reflexivity|]. split; [vm_compute; reflexivity|].
  repeat constructor; vm_compute; reflexivity.
Qed.

(** ** The audit trail *)

(** C2. [Deployment] passes its own [deploymentID] to [CreateAsset] as the
    identifier of the log entry, so the log entry and the deployment
    record are written under one key and only one of them stays.  On the
    empty ledger, [Deployment("A1","hello","payload","D1")] succeeds; when
    the write of the detached [CreateAsset] is dropped, key ["D1"] holds
    the deployment record and the ledger lists no log entry at all; when
    it settles, the log entry is listed but [GetDeploymentByID] answers
    the log entry in place of the deployment. *)
Theorem Deployment_log_shares_key_with_record :
  let tx fate := Deployment fate "A1" "hello" "payload" "D1" in
  let log := encode (transactionLog_object "D1" "A1" date "hello") in
  (fst (invoke (tx Dropped) ∅) = Returned tt
   /\ fst (invoke GetAllTransactionLogs_results (snd (invoke (tx Dropped) ∅))) = Returned []
   /\ fst (invoke GetAllTransactionLogs (snd (invoke (tx Dropped) ∅))) = Returned "[]")
  /\ (fst (invoke (tx Settles) ∅) = Returned tt
      /\ fst (invoke GetAllTransactionLogs_results (snd (invoke (tx Settles) ∅)))
         = Returned [JObject [("authorID", JString "A1");
                              ("description", JString "hello");
                              ("time", JString "2022-07-30T09:13:29.567Z");
                              ("transactionID", JString "D1")]]
      /\ fst (invoke (GetDeploymentByID "D1") (snd (invoke (tx Settles) ∅))) = Returned log).
Proof. vm_compute. repeat split. Qed.

(** C9. [Deployment] issues two writes under its one key: the deployment
    record and the log entry of [CreateAsset], records of two different
    kinds.  This does not depend on what becomes of the detached call. *)
Theorem Deployment_writes_two_kinds_under_one_key (fate : Detached) :
  let record := encode (deployment_object "D1" "hello" "A1" "payload") in
  let log := encode (transactionLog_object "D1" "A1" date "hello") in
  issued (Deployment fate "A1" "hello" "payload" "D1") ∅
  = [PutState "D1" record; PutState "D1" log]
  /\ holds "deploymentID" record /\ ~ holds "transactionID" record
  /\ holds "transactionID" log /\ ~ holds "deploymentID" log.
Proof.
  intros record log. split.
  - unfold issued. rewrite run_Deployment_absent by reflexivity. reflexivity.
  - repeat split; compute_done.
Qed.

(** C6. The state [Deployment] leaves is not a function of the state and
    the arguments alone: it depends on whether the write of the call of
    [CreateAsset] that is not awaited settles in the unit of work.  Two
    executions on the empty ledger with the same arguments end with
    different bytes under key ["D1"]. *)
Theorem Deployment_outcome_depends_on_detached_write :
  let run fate := invoke (Deployment fate "A1" "hello" "payload" "D1") ∅ in
  fst (run Settles) = Returned tt /\ fst (run Dropped) = Returned tt
  /\ snd (run Settles) !! "D1"
     = Some (encode (transactionLog_object "D1" "A1" date "hello"))
  /\ snd (run Dropped) !! "D1"
     = Some (encode (deployment_object "D1" "hello" "A1" "payload"))
  /\ snd (run Settles) <> snd (run Dropped).
Proof.
  intros run. repeat split; try (vm_compute; reflexivity).
  intros H. apply (f_equal (fun ledger => ledger !! "D1")) in H.
  vm_compute in H. discriminate H.
Qed.

(** The other write operations leave a state that is a function of the
    state and the arguments: [Revoke] reads the clock and the random
    source, but the identifier it draws never reaches the ledger. *)
Lemma Revoke_independent_of_environment env1 env2 fate1 fate2 d reason authorID ledger :
  invoke (Revoke env1 fate1 d reason authorID) ledger
  = invoke (Revoke env2 fate2 d reason authorID) ledger.
Proof.
  unfold invoke. destruct (present ledger d) eqn:H.
  - by rewrite !run_Revoke_present.
  - by rewrite !run_Revoke_missing.
Qed.

Lemma holds_not_empty identifying value : holds identifying value -> value <> EmptyString.
Proof. intros [x Hx] ->. discriminate Hx. Qed.

Lemma holds_present identifying ledger key value :
  ledger !! key = Some value -> holds identifying value -> present ledger key = true.
Proof.
  intros Hk Hv. apply holds_not_empty in Hv. unfold present. rewrite Hk. simpl.
  destruct value; [done|reflexivity].
Qed.

(** A key that is taken keeps its bytes through every operation except
    the unconditional write of [InitLedger] under ["1"]. *)
Lemma commit_keeps_present op ledger key value :
  (op = OpInitLedger -> key <> "1") ->
  ledger !! key = Some value -> present ledger key = true ->
  commit op ledger !! key = Some value.
Proof.
  intros Hop Hk Hp. unfold commit. destruct op as [|fate a c p d|env fate d r a|i a t ds];
    cbn [transaction].
  - unfold invoke. rewrite run_InitLedger. cbn [snd worldState].
    rewrite lookup_insert_ne; [exact Hk|]. intros E. by apply Hop.
  - destruct (present ledger d) eqn:Hd.
    + by rewrite commit_Deployment_present.
    + rewrite commit_Deployment_absent by exact Hd. cbn [snd].
      rewrite lookup_insert_ne; [exact Hk|]. intros ->. congruence.
  - unfold invoke. destruct (present ledger d) eqn:Hd.
    + by rewrite run_Revoke_present.
    + by rewrite run_Revoke_missing.
  - unfold invoke. destruct (present ledger i) eqn:Hd.
    + by rewrite run_CreateAsset_present.
    + rewrite run_CreateAsset_absent by exact Hd. cbn [snd worldState].
      rewrite lookup_insert_ne; [exact Hk|]. intros ->. congruence.
Qed.

(** C3, as the code has it.  A key that holds a log entry holds the same
    bytes after [Deployment], [Revoke] and [CreateAsset], on every ledger;
    [InitLedger] keeps every key but ["1"], which it writes without a
    check. *)
Theorem TransactionLog_kept_except_InitLedger_key
    (op : Operation) (ledger : gmap string string) (key value : string) :
  (op = OpInitLedger -> key <> "1") ->
  ledger !! key = Some value ->
  holds "transactionID" value ->
  commit op ledger !! key = Some value.
Proof.
  intros Hop Hk Hv. apply commit_keeps_present; [exact Hop|exact Hk|].
  by eapply holds_present.
Qed.

Lemma TransactionLog_kept_except_InitLedger_key_witness :
  commit OpInitLedger (commit (OpCreateAsset "T1" "A1" date "audit") ∅) !! "T1"
  = Some (encode (transactionLog_object "T1" "A1" date "audit")).
Proof.
  apply (TransactionLog_kept_except_InitLedger_key OpInitLedger
           (commit (OpCreateAsset "T1" "A1" date "audit") ∅) "T1"
           (encode (transactionLog_object "T1" "A1" date "audit"))).
  - intros _. discriminate.
  - vm_compute. reflexivity.
  - compute_done.
Defined.

(** C3, as stated, fails: a log entry written under ["1"] by [CreateAsset]
    is replaced by the seed revocation when [InitLedger] runs. *)
Lemma TransactionLog_overwritten_by_InitLedger :
  ~ (forall (op : Operation) (ledger : gmap string string) (key value : string),
       reachable ledger ->
       ledger !! key = Some value ->
       holds "transactionID" value ->
       commit op ledger !! key = Some value).
Proof.
  intros H.
  specialize (H OpInitLedger (commit (OpCreateAsset "1" "A1" date "audit") ∅) "1"
                (encode (transactionLog_object "1" "A1" date "audit"))).
  assert (Hbad : commit OpInitLedger (commit (OpCreateAsset "1" "A1" date "audit") ∅) !! "1"
                 = Some (encode (transactionLog_object "1" "A1" date "audit"))).
  { apply H.
    - apply reachable_commit, reachable_empty.
    - vm_compute. reflexivity.
    - compute_done. }
  vm_compute in Hbad. discriminate Hbad.
Qed.

(** ** Listing revocations *)

Lemma in_range_unbounded key : in_range EmptyString EmptyString key = true.
Proof. unfold in_range. destruct key; reflexivity. Qed.

Lemma run_getStateByRange_full st :
  getStateByRange EmptyString EmptyString st = (Returned (scan (worldState st)), st).
Proof.
  unfold getStateByRange, scan. do 3 f_equal.
  induction (map_to_list (worldState st)) as [|kv l IH]; [reflexivity|].
  rewrite filter_cons_True by apply in_range_unbounded. by rewrite IH.
Qed.

(** Every stored entry is scanned, and nothing else. *)
Lemma elem_of_scan ledger key value :
  (key, value) ∈ scan ledger <-> ledger !! key = Some value.
Proof.
  unfold scan. rewrite merge_sort_Permutation. apply elem_of_map_to_list.
Qed.

(** The loop of the listings: it throws on the first record that is
    [null], and otherwise keeps the records that have the property. *)
Lemma run_collect name entries st :
  collect name entries st
  = if existsb is_null (map (fun kv => parse_or_raw (snd kv)) entries)
    then (Thrown (TypeError "Cannot read properties of null"), st)
    else (Returned (filter (fun r => is_Some (field name r))
                      (map (fun kv => parse_or_raw (snd kv)) entries)), st).
Proof.
  induction entries as [|[k strValue] rest IH]; [reflexivity|].
  cbn [collect map existsb snd]. unfold mbind, Tx_bind.
  destruct (parse_or_raw strValue) as [| | | | | |fs] eqn:E; cbn [is_null orb];
    try reflexivity;
    cbn [get_property]; unfold mret, Tx_ret; rewrite IH;
    destruct (existsb is_null _); try reflexivity.
  cbn [field]. destruct (lookup_field name fs) as [x|] eqn:F.
  - rewrite filter_cons_True by (cbn [field]; rewrite F; by eexists). reflexivity.
  - rewrite filter_cons_False by (cbn [field]; rewrite F; by intros [??]). reflexivity.
Qed.

(** [GetAllRevocations] of revocationTransfer.ts.  On every state of the
    keyspace, whatever records and unparseable values it holds, the
    records [GetAllRevocations] returns are exactly
    the scanned records that have a [RevocationID], so each of them has
    one; records without it, and values that do not parse, are left out.
    The call throws only when a stored value is the JSON text [null]. *)
Theorem GetAllRevocations_only_records_with_RevocationID (ledger : gmap string string) :
  let scanned := map (fun kv => parse_or_raw (snd kv)) (scan ledger) in
  match fst (invoke GetAllRevocations_results ledger) with
  | Returned allResults =>
      allResults = filter (fun r => is_Some (field "RevocationID" r)) scanned
      /\ Forall (fun r => is_Some (field "RevocationID" r)) allResults
      /\ fst (invoke GetAllRevocations ledger)
         = Returned (JSON_stringify (JArray allResults))
  | Thrown e =>
      e = TypeError "Cannot read properties of null"
      /\ existsb is_null scanned = true
  end.
Proof.
  intros scanned.
  assert (Hrun : forall st, GetAllRevocations_results st
    = if existsb is_null (map (fun kv => parse_or_raw (snd kv)) (scan (worldState st)))
      then (Thrown (TypeError "Cannot read properties of null"), st)
      else (Returned (filter (fun r => is_Some (field "RevocationID" r))
                        (map (fun kv => parse_or_raw (snd kv)) (scan (worldState st)))), st)).
  { intros st. unfold GetAllRevocations_results, mbind, Tx_bind.
    rewrite run_getStateByRange_full. apply run_collect. }
  unfold GetAllRevocations, invoke, mbind, Tx_bind. rewrite Hrun. cbn [worldState].
  fold scanned. destruct (existsb is_null scanned) eqn:E; cbn [fst].
  - done.
  - split; [reflexivity|]. split; [|reflexivity].
    apply Forall_forall. intros r Hr. by apply list_elem_of_filter in Hr as [? _].
Qed.

(** An unparseable value never has the property. *)
Lemma raw_text_has_no_field name strValue :
  JSON_parse strValue = None -> field name (parse_or_raw strValue) = None.
Proof. intros H. unfold parse_or_raw. by rewrite H. Qed.

(** The listing at work on a ledger that holds a revocation, a
    deployment, a log entry and a value that is not JSON. *)
Example GetAllRevocations_mixed_ledger :
  let ledger :=
    <["zz" := "not json"]>
      (commit (OpCreateAsset "T1" "A1" date "audit")
         (commit (OpDeployment Dropped "A1" "hello" "payload" "D1")
            (commit OpInitLedger ∅))) in
  fst (invoke GetAllRevocations ledger)
  = Returned (JSON_stringify (JArray [JObject [("RevocationID", JString "1");
                                                 ("reason", JString "example");
                                                 ("targetDeploymentID", JString "123")]])).
Proof. vm_compute. reflexivity. Qed.

(** The second copy of the contract has no such filter: right after its
    own [InitLedger], its [GetAllRevocations] returns the five seeded
    deployments next to the one revocation. *)
Example Part000_GetAllRevocations_returns_deployments :
  let ledger := snd (invoke Part000.InitLedger ∅) in
  exists allResults,
    fst (invoke Part000.GetAllRevocations_results ledger) = Returned allResults
    /\ length allResults = 6
    /\ length (filter (fun r => is_Some (field "RevocationID" r)) allResults) = 1.
Proof. eexists. split; [vm_compute; reflexivity|]. split; reflexivity. Qed.

(** C8.  The claim holds for [GetAllRevocations] of revocationTransfer.ts
    and fails for the one of the second copy of the contract, which pushes
    every scanned record.  On the ledger its own [InitLedger] leaves, it
    returns six records; five of them are the seeded deployments, which
    have no [RevocationID].  On the same ledger the listing of
    revocationTransfer.ts returns the one revocation. *)
Theorem Part000_GetAllRevocations_lists_deployments :
  let ledger := snd (invoke Part000.InitLedger ∅) in
  let deployment (a c d p : string) :=
    JObject [("authorID", JString a); ("comment", JString c);
             ("deploymentID", JString d); ("payload", JString p)] in
  let revocation :=
    JObject [("RevocationID", JString "1"); ("reason", JString "example");
             ("targetDeploymentID", JString "123")] in
  fst (invoke Part000.InitLedger ∅) = Returned tt
  /\ fst (invoke Part000.GetAllRevocations_results ledger)
     = Returned [deployment "1111" "Hello" "0000" "sodjfo";
                 revocation;
                 deployment "5555" "Aloha" "6666" "lrterw";
                 deployment "4444" "Hola" "7777" "nknjnk";
                 deployment "3333" "Hi" "8888" "khklhl";
                 deployment "2222" "Hey" "9999" "kajsnf"]
  /\ Forall (fun r => field "RevocationID" r = None)
       [deployment "1111" "Hello" "0000" "sodjfo";
        deployment "5555" "Aloha" "6666" "lrterw";
        deployment "4444" "Hola" "7777" "nknjnk";
        deployment "3333" "Hi" "8888" "khklhl";
        deployment "2222" "Hey" "9999" "kajsnf"]
  /\ fst (invoke GetAllRevocations_results ledger) = Returned [revocation].
Proof.
  intros ledger deployment revocation.
  split; [reflexivity|]. split; [vm_compute; reflexivity|].
  split; [by repeat constructor|]. vm_compute. reflexivity.
Qed.

(** ** The canonical encoding *)

#[local] Instance key_le_trans : Transitive key_le.
Proof. intros a b c. unfold key_le. apply transitivity. Qed.

#[local] Instance key_le_total : Total key_le.
Proof. intros a b. unfold key_le. apply total, _. Qed.

(** Among fields with distinct keys, the key decides the field. *)
Lemma field_determined_by_key (l : list (string * JValue)) a b :
  NoDup (map fst l) -> In a l -> In b l -> fst a = fst b -> a = b.
Proof.
  induction l as [|x l IH]; [done|].
  cbn [map]. intros Hnd Ha Hb E. apply NoDup_cons in Hnd as [Hx Hnd].
  destruct Ha as [->|Ha], Hb as [->|Hb]; [done| | |by apply IH].
  - exfalso. apply Hx. rewrite E. apply list_elem_of_In, in_map, Hb.
  - exfalso. apply Hx. rewrite <- E. apply list_elem_of_In, in_map, Ha.
Qed.

(** Sorting by key forgets the order the fields came in. *)
Lemma merge_sort_fields_Permutation (l1 l2 : list (string * JValue)) :
  NoDup (map fst l1) -> Permutation l1 l2 ->
  merge_sort key_le l1 = merge_sort key_le l2.
Proof.
  intros Hnd Hperm. apply (Sorted_unique_strong key_le).
  - intros a b Ha Hb Hab Hba.
    apply (field_determined_by_key l1); [exact Hnd| | |].
    + apply list_elem_of_In. by rewrite merge_sort_Permutation in Ha.
    + apply list_elem_of_In. rewrite merge_sort_Permutation in Hb. by rewrite Hperm.
    + unfold key_le in *. by apply (anti_symm String.le).
  - apply Sorted_merge_sort, _.
  - apply Sorted_merge_sort, _.
  - by rewrite !merge_sort_Permutation.
Qed.

Lemma sortKeysRecursive_reordered (v w : JValue) :
  distinct_keys v = true -> reordered v w ->
  sortKeysRecursive v = sortKeysRecursive w.
Proof.
  revert w. induction v as [| | | | |xs IH|fs IH] using JValue_ind_deep;
    intros w Hd Hr; inversion Hr; subst; try reflexivity.
  - (* arrays *)
    cbn [sortKeysRecursive distinct_keys] in *. f_equal.
    match goal with H : Forall2 reordered xs _ |- _ => rename H into H2 end.
    clear Hr. revert IH Hd.
    induction H2 as [|x y xs' ys' Hxy H2 IH2]; intros IH Hd; [reflexivity|].
    cbn [map forallb] in *. apply andb_prop in Hd as [Hx Hxs].
    apply Forall_cons in IH as [IHx IHxs].
    f_equal; [exact (IHx y Hx Hxy)|exact (IH2 IHxs Hxs)].
  - (* objects *)
    cbn [sortKeysRecursive distinct_keys] in *. f_equal.
    apply andb_prop in Hd as [Hnd Hvs]. apply bool_decide_eq_true in Hnd.
    match goal with H : Forall2 _ fs ?gs |- _ => rename H into H2 end.
    match goal with H : Permutation _ _ |- _ => rename H into Hperm end.
    set (g := fun kv : string * JValue => (fst kv, sortKeysRecursive (snd kv))).
    assert (Hmap : map g fs = map g gs).
    { clear Hperm Hnd Hr. revert IH Hvs.
      induction H2 as [|a b fs' gs' [Hk Hab] H2 IH2]; intros IH Hvs; [reflexivity|].
      cbn [map forallb] in *. apply andb_prop in Hvs as [Ha Hfs].
      apply Forall_cons in IH as [IHa IHfs].
      f_equal; [|exact (IH2 IHfs Hfs)].
      unfold g. by rewrite Hk, (IHa _ Ha Hab). }
    rewrite Hmap. apply merge_sort_fields_Permutation.
    + rewrite <- Hmap, map_map. cbn [g fst]. exact Hnd.
    + by apply Permutation_map.
Qed.

(** C7. The canonical encoding does not depend on the order of the
    fields: a record with distinct keys and the same record with the
    fields of its mappings, at any depth, in another order have the same
    bytes. *)
Theorem encode_insensitive_to_field_order (R R' : JValue) :
  distinct_keys R = true -> reordered R R' -> encode R = encode R'.
Proof.
  intros Hd Hr. unfold encode, stringify.
  by rewrite (sortKeysRecursive_reordered R R' Hd Hr).
Qed.

Lemma encode_insensitive_to_field_order_witness :
  encode (JObject [("payload", JObject [("b", JString "2"); ("a", JString "1")]);
                   ("deploymentID", JString "D1");
                   ("authorID", JString "A1")])
  = encode (JObject [("authorID", JString "A1");
                     ("payload", JObject [("a", JString "1"); ("b", JString "2")]);
                     ("deploymentID", JString "D1")]).
Proof.
  apply encode_insensitive_to_field_order; [reflexivity|].
  apply (reordered_object _
           [("payload", JObject [("a", JString "1"); ("b", JString "2")]);
            ("deploymentID", JString "D1");
            ("authorID", JString "A1")]).
  - repeat constructor.
    apply (reordered_object _ [("b", JString "2"); ("a", JString "1")]).
    + repeat constructor.
    + apply perm_swap.
  - apply (perm_trans (l' := [("payload", JObject [("a", JString "1"); ("b", JString "2")]);
                              ("authorID", JString "A1");
                              ("deploymentID", JString "D1")]));
      [apply perm_skip, perm_swap | apply perm_swap].
Defined.

(** * Further properties of the contract *)

(** ** Reading *)

Lemma run_getter_empty (tx : string -> Tx string) (message : string -> string) id st :
  (forall i, tx i = (bytes ← getState i;
                     if (String.length bytes =? 0)%nat
                     then throw (NotFound (message i)) else mret bytes)) ->
  tx id st
  = (if (String.length (default EmptyString (worldState st !! id)) =? 0)%nat
     then Thrown (NotFound (message id))
     else Returned (default EmptyString (worldState st !! id)), st).
Proof.
  intros ->. unfold mbind, Tx_bind, getState.
  by destruct (String.length (default EmptyString (worldState st !! id)) =? 0)%nat.
Qed.

Lemma run_GetDeploymentByID id st :
  GetDeploymentByID id st
  = (if (String.length (default EmptyString (worldState st !! id)) =? 0)%nat
     then Thrown (NotFound ("The asset " +:+ id +:+ " does not exist"))
     else Returned (default EmptyString (worldState st !! id)), st).
Proof.
  apply (run_getter_empty GetDeploymentByID
           (fun i => "The asset " +:+ i +:+ " does not exist")). reflexivity.
Qed.

Lemma run_GetRevocationByID id st :
  GetRevocationByID id st
  = (if (String.length (default EmptyString (worldState st !! id)) =? 0)%nat
     then Thrown (NotFound ("The asset " +:+ id +:+ " does not exist"))
     else Returned (default EmptyString (worldState st !! id)), st).
Proof.
  apply (run_getter_empty GetRevocationByID
           (fun i => "The asset " +:+ i +:+ " does not exist")). reflexivity.
Qed.

Lemma run_ReadAsset id st :
  ReadAsset id st
  = (if (String.length (default EmptyString (worldState st !! id)) =? 0)%nat
     then Thrown (NotFound ("The log of a transaction with an ID of " +:+ id
                            +:+ " does not exist"))
     else Returned (default EmptyString (worldState st !! id)), st).
Proof.
  apply (run_getter_empty ReadAsset
           (fun i => "The log of a transaction with an ID of " +:+ i +:+ " does not exist")).
  reflexivity.
Qed.

Lemma run_listing name st :
  (iterator ← getStateByRange EmptyString EmptyString; collect name iterator) st
  = if existsb is_null (map (fun kv => parse_or_raw (snd kv)) (scan (worldState st)))
    then (Thrown (TypeError "Cannot read properties of null"), st)
    else (Returned (filter (fun r => is_Some (field name r))
                      (map (fun kv => parse_or_raw (snd kv)) (scan (worldState st)))), st).
Proof.
  unfold mbind, Tx_bind. rewrite run_getStateByRange_full. apply run_collect.
Qed.

Lemma length_zero_present ledger id :
  (String.length (default EmptyString (ledger !! id)) =? 0)%nat = negb (present ledger id).
Proof. unfold present. by destruct (String.length _). Qed.

(** X1. The transactions marked read-only issue no write and no delete
    and leave the world state as it is, whether they return or throw;
    this includes the two listings, which run over the whole keyspace. *)
Theorem read_only_transactions_leave_the_stub (id : string) (st : Stub) :
  snd (GetRevocationByID id st) = st
  /\ snd (ValidateRevocation id st) = st
  /\ snd (GetAllRevocations st) = st
  /\ snd (GetDeploymentByID id st) = st
  /\ snd (ValidateDeployment id st) = st
  /\ snd (TransactionExists id st) = st
  /\ snd (ReadAsset id st) = st
  /\ snd (GetAllTransactionLogs st) = st.
Proof.
  repeat apply conj.
  - rewrite run_GetRevocationByID. by destruct (_ =? _)%nat.
  - reflexivity.
  - unfold GetAllRevocations, mbind, Tx_bind.
    change (GetAllRevocations_results st) with
      ((iterator ← getStateByRange EmptyString EmptyString;
        collect "RevocationID" iterator) st).
    rewrite run_listing. by destruct (existsb is_null _).
  - rewrite run_GetDeploymentByID. by destruct (_ =? _)%nat.
  - reflexivity.
  - reflexivity.
  - rewrite run_ReadAsset. by destruct (_ =? _)%nat.
  - unfold GetAllTransactionLogs, mbind, Tx_bind.
    change (GetAllTransactionLogs_results st) with
      ((iterator ← getStateByRange EmptyString EmptyString;
        collect "transactionID" iterator) st).
    rewrite run_listing. by destruct (existsb is_null _).
Qed.

(** X2. [GetDeploymentByID] returns exactly when [ValidateDeployment]
    answers true, and then returns the stored bytes.  It throws the
    not-found error, naming the identifier, when the key is absent and
    also when the key holds the empty buffer. *)
Theorem GetDeploymentByID_agrees_with_ValidateDeployment
    (ledger : gmap string string) (id : string) :
  match fst (invoke (GetDeploymentByID id) ledger) with
  | Returned bytes =>
      fst (invoke (ValidateDeployment id) ledger) = Returned true
      /\ ledger !! id = Some bytes /\ bytes <> EmptyString
  | Thrown e =>
      fst (invoke (ValidateDeployment id) ledger) = Returned false
      /\ e = NotFound ("The asset " +:+ id +:+ " does not exist")
      /\ (ledger !! id = None \/ ledger !! id = Some EmptyString)
  end.
Proof.
  rewrite invoke_ValidateDeployment. unfold invoke.
  rewrite run_GetDeploymentByID. cbn [worldState].
  rewrite length_zero_present. unfold present.
  destruct (ledger !! id) as [[|c s]|]; cbn; auto.
Qed.

(** X3. [ReadAsset] returns exactly when [TransactionExists] answers
    true, and then returns the stored bytes; otherwise it throws its own
    not-found error.  The same holds for [GetRevocationByID] and
    [ValidateRevocation]. *)
Theorem ReadAsset_agrees_with_TransactionExists
    (ledger : gmap string string) (id : string) :
  match fst (invoke (ReadAsset id) ledger) with
  | Returned bytes =>
      fst (invoke (TransactionExists id) ledger) = Returned true
      /\ ledger !! id = Some bytes /\ bytes <> EmptyString
  | Thrown e =>
      fst (invoke (TransactionExists id) ledger) = Returned false
      /\ e = NotFound ("The log of a transaction with an ID of " +:+ id
                       +:+ " does not exist")
      /\ (ledger !! id = None \/ ledger !! id = Some EmptyString)
  end
  /\
  match fst (invoke (GetRevocationByID id) ledger) with
  | Returned bytes =>
      fst (invoke (ValidateRevocation id) ledger) = Returned true
      /\ ledger !! id = Some bytes /\ bytes <> EmptyString
  | Thrown e =>
      fst (invoke (ValidateRevocation id) ledger) = Returned false
      /\ e = NotFound ("The asset " +:+ id +:+ " does not exist")
      /\ (ledger !! id = None \/ ledger !! id = Some EmptyString)
  end.
Proof.
  change (fst (invoke (TransactionExists id) ledger)) with (Returned (A:=bool) (present ledger id)).
  change (fst (invoke (ValidateRevocation id) ledger)) with (Returned (A:=bool) (present ledger id)).
  unfold invoke. rewrite run_ReadAsset, run_GetRevocationByID. cbn [worldState].
  rewrite length_zero_present. unfold present.
  destruct (ledger !! id) as [[|c s]|]; cbn; auto.
Qed.

(** ** Writing *)

Lemma invoke_TransactionExists id ledger :
  fst (invoke (TransactionExists id) ledger) = Returned (present ledger id).
Proof. reflexivity. Qed.

Lemma invoke_ReadAsset_present ledger id bytes :
  ledger !! id = Some bytes -> (0 <? String.length bytes)%nat = true ->
  fst (invoke (ReadAsset id) ledger) = Returned bytes.
Proof.
  intros Hk Hb. unfold invoke. rewrite run_ReadAsset. cbn [worldState fst].
  rewrite Hk. cbn [default]. destruct bytes; [discriminate Hb|reflexivity].
Qed.

Lemma invoke_CreateAsset ID authorID time description ledger :
  invoke (CreateAsset ID authorID time description) ledger
  = if present ledger ID
    then (Thrown (AlreadyExists ("The asset " +:+ ID +:+ " already exists")), ledger)
    else (Returned tt,
          <[ID := encode (transactionLog_object ID authorID time description)]> ledger).
Proof.
  unfold invoke. destruct (present ledger ID) eqn:H.
  - by rewrite run_CreateAsset_present.
  - by rewrite run_CreateAsset_absent.
Qed.

(** X4. [CreateAsset] under a free identifier returns, issues the one
    write of the log entry, and the entry can be read back: [ReadAsset]
    returns its canonical encoding and [TransactionExists] answers true.
    No other key changes. *)
Theorem CreateAsset_then_ReadAsset
    (ledger : gmap string string) (ID authorID : string) (time : Z) (description : string) :
  fst (invoke (TransactionExists ID) ledger) = Returned false ->
  fst (invoke (CreateAsset ID authorID time description) ledger) = Returned tt
  /\ issued (CreateAsset ID authorID time description) ledger
     = [PutState ID (encode (transactionLog_object ID authorID time description))]
  /\ fst (invoke (ReadAsset ID) (commit (OpCreateAsset ID authorID time description) ledger))
     = Returned (encode (transactionLog_object ID authorID time description))
  /\ fst (invoke (TransactionExists ID)
            (commit (OpCreateAsset ID authorID time description) ledger))
     = Returned true
  /\ forall key, key <> ID ->
       commit (OpCreateAsset ID authorID time description) ledger !! key = ledger !! key.
Proof.
  rewrite invoke_TransactionExists. intros H.
  assert (Hp : present ledger ID = false) by congruence.
  unfold commit, issued. cbn [transaction].
  rewrite invoke_CreateAsset, Hp. cbn [fst snd].
  rewrite run_CreateAsset_absent by exact Hp. cbn [snd calls app].
  repeat apply conj; try reflexivity.
  - apply invoke_ReadAsset_present; [apply lookup_insert_eq|apply encode_object_not_empty].
  - rewrite invoke_TransactionExists. f_equal.
    apply present_insert, encode_object_not_empty.
  - intros key Hne. by rewrite lookup_insert_ne.
Qed.

Lemma CreateAsset_then_ReadAsset_witness :
  fst (invoke (CreateAsset "T1" "A1" date "audit") ∅) = Returned tt
  /\ issued (CreateAsset "T1" "A1" date "audit") ∅
     = [PutState "T1" (encode (transactionLog_object "T1" "A1" date "audit"))]
  /\ fst (invoke (ReadAsset "T1") (commit (OpCreateAsset "T1" "A1" date "audit") ∅))
     = Returned (encode (transactionLog_object "T1" "A1" date "audit"))
  /\ fst (invoke (TransactionExists "T1") (commit (OpCreateAsset "T1" "A1" date "audit") ∅))
     = Returned true
  /\ forall key, key <> "T1" ->
       commit (OpCreateAsset "T1" "A1" date "audit") ∅ !! key = (∅ : gmap string string) !! key.
Proof.
  apply (CreateAsset_then_ReadAsset ∅ "T1" "A1" date "audit"). reflexivity.
Defined.

Lemma present_after_CreateAsset ID authorID time description ledger :
  present (commit (OpCreateAsset ID authorID time description) ledger) ID = true.
Proof.
  unfold commit. cbn [transaction]. rewrite invoke_CreateAsset.
  destruct (present ledger ID) eqn:H; cbn [snd]; [exact H|].
  apply present_insert, encode_object_not_empty.
Qed.

Lemma present_after_InitLedger ledger : present (commit OpInitLedger ledger) "1" = true.
Proof.
  unfold commit, invoke. cbn [transaction]. rewrite run_InitLedger. cbn [snd worldState].
  apply present_insert, encode_object_not_empty.
Qed.

(** X5. [CreateAsset] twice under one identifier, with any arguments: the
    second call throws the already-exists error, issues nothing, and the
    state after both calls is the state after the first.  A log entry is
    never rewritten through [CreateAsset]. *)
Theorem CreateAsset_twice_AlreadyExists
    (ledger : gmap string string) (ID authorID1 authorID2 : string) (time1 time2 : Z)
    (description1 description2 : string) :
  invoke (CreateAsset ID authorID2 time2 description2)
    (commit (OpCreateAsset ID authorID1 time1 description1) ledger)
  = (Thrown (AlreadyExists ("The asset " +:+ ID +:+ " already exists")),
     commit (OpCreateAsset ID authorID1 time1 description1) ledger)
  /\ issued (CreateAsset ID authorID2 time2 description2)
       (commit (OpCreateAsset ID authorID1 time1 description1) ledger) = [].
Proof.
  pose proof (present_after_CreateAsset ID authorID1 time1 description1 ledger) as H.
  split.
  - by rewrite invoke_CreateAsset, H.
  - unfold issued. by rewrite run_CreateAsset_present.
Qed.

(** X6. The record kinds share one keyspace and the existence checks do
    not tell them apart: after [Deployment] under a key, [CreateAsset]
    under that key throws already-exists; after [CreateAsset] under a key,
    [Deployment] under it throws already-exists; and after [InitLedger]
    both throw under ["1"], the key of the seed revocation. *)
Theorem creation_collides_across_kinds
    (fate : Detached) (ledger : gmap string string)
    (key authorID comment payload logAuthor description : string) (time : Z) :
  fst (invoke (CreateAsset key logAuthor time description)
         (commit (OpDeployment fate authorID comment payload key) ledger))
  = Thrown (AlreadyExists ("The asset " +:+ key +:+ " already exists"))
  /\ fst (invoke (Deployment fate authorID comment payload key)
            (commit (OpCreateAsset key logAuthor time description) ledger))
     = Thrown (AlreadyExists ("The asset " +:+ key +:+ " already exists"))
  /\ fst (invoke (Deployment fate authorID comment payload "1") (commit OpInitLedger ledger))
     = Thrown (AlreadyExists "The asset 1 already exists")
  /\ fst (invoke (CreateAsset "1" logAuthor time description) (commit OpInitLedger ledger))
     = Thrown (AlreadyExists "The asset 1 already exists").
Proof.
  repeat apply conj.
  - by rewrite invoke_CreateAsset, present_after_Deployment.
  - by rewrite commit_Deployment_present by apply present_after_CreateAsset.
  - by rewrite commit_Deployment_present by apply present_after_InitLedger.
  - by rewrite invoke_CreateAsset, present_after_InitLedger.
Qed.

(** X7. [Deployment] under a free key returns and changes that key only.
    What [GetDeploymentByID] reads back there is the deployment record
    when the log write of the call that is not awaited is dropped, and the
    log entry when it settles. *)
Theorem Deployment_then_GetDeploymentByID
    (fate : Detached) (ledger : gmap string string)
    (authorID comment payload deploymentID : string) :
  fst (invoke (ValidateDeployment deploymentID) ledger) = Returned false ->
  fst (invoke (Deployment fate authorID comment payload deploymentID) ledger) = Returned tt
  /\ fst (invoke (GetDeploymentByID deploymentID)
            (commit (OpDeployment fate authorID comment payload deploymentID) ledger))
     = Returned (match fate with
                 | Settles => encode (transactionLog_object deploymentID authorID date comment)
                 | Dropped => encode (deployment_object deploymentID comment authorID payload)
                 end)
  /\ forall key, key <> deploymentID ->
       commit (OpDeployment fate authorID comment payload deploymentID) ledger !! key
       = ledger !! key.
Proof.
  rewrite invoke_ValidateDeployment. intros H.
  assert (Hp : present ledger deploymentID = false) by congruence.
  unfold commit. cbn [transaction].
  rewrite commit_Deployment_absent by exact Hp. cbn [fst snd].
  repeat apply conj; [reflexivity| |].
  - unfold invoke. rewrite run_GetDeploymentByID. cbn [worldState fst].
    rewrite lookup_insert_eq. by destruct fate.
  - intros key Hne. by rewrite lookup_insert_ne.
Qed.

Lemma Deployment_then_GetDeploymentByID_witness :
  fst (invoke (Deployment Dropped "A1" "hello" "payload" "D1") ∅) = Returned tt
  /\ fst (invoke (GetDeploymentByID "D1")
            (commit (OpDeployment Dropped "A1" "hello" "payload" "D1") ∅))
     = Returned (encode (deployment_object "D1" "hello" "A1" "payload"))
  /\ forall key, key <> "D1" ->
       commit (OpDeployment Dropped "A1" "hello" "payload" "D1") ∅ !! key
       = (∅ : gmap string string) !! key.
Proof.
  apply (Deployment_then_GetDeploymentByID Dropped ∅ "A1" "hello" "payload" "D1").
  reflexivity.
Defined.

(** X8. [InitLedger] always returns, changes key ["1"] only, and running
    it again changes nothing. *)
Theorem InitLedger_idempotent (ledger : gmap string string) :
  fst (invoke InitLedger ledger) = Returned tt
  /\ commit OpInitLedger (commit OpInitLedger ledger) = commit OpInitLedger ledger
  /\ forall key, key <> "1" -> commit OpInitLedger ledger !! key = ledger !! key.
Proof.
  unfold commit, invoke. cbn [transaction]. rewrite !run_InitLedger. cbn [fst snd worldState].
  repeat apply conj; [reflexivity|apply insert_insert_eq|].
  intros key Hne. by rewrite lookup_insert_ne.
Qed.

(** ** What the write operations never do *)

(** X9. No write operation frees a key: a key for which the existence
    check answers true before an operation answers true after it.  In
    particular a deployment stays in place through [Revoke]. *)
Theorem taken_keys_stay_taken (op : Operation) (ledger : gmap string string) (key : string) :
  fst (invoke (ValidateDeployment key) ledger) = Returned true ->
  fst (invoke (ValidateDeployment key) (commit op ledger)) = Returned true.
Proof.
  rewrite !invoke_ValidateDeployment. intros H.
  assert (Hp : present ledger key = true) by congruence. f_equal.
  destruct (present_true_lookup _ _ Hp) as (value & Hk & Hv).
  assert (Hkeep : (op = OpInitLedger -> key <> "1") ->
                  present (commit op ledger) key = true).
  { intros Hop. unfold present.
    rewrite (commit_keeps_present op ledger key value Hop Hk Hp).
    unfold present in Hp. by rewrite Hk in Hp. }
  destruct (decide (key = "1")) as [->|Hne]; [|by apply Hkeep].
  destruct op; try (apply Hkeep; discriminate).
  apply present_after_InitLedger.
Qed.

Lemma taken_keys_stay_taken_witness :
  fst (invoke (ValidateDeployment "D1")
         (commit (OpRevoke sample_entropy Settles "D1" "bad build" "A1") ledger_with_D1))
  = Returned true.
Proof.
  apply (taken_keys_stay_taken (OpRevoke sample_entropy Settles "D1" "bad build" "A1")
           ledger_with_D1 "D1").
  vm_compute. reflexivity.
Defined.

Lemma issued_InitLedger ledger :
  issued InitLedger ledger
  = [PutState "1" (encode (Revocation_object
       {| targetDeploymentID := "123"; reason := "example"; RevocationID := "1" |}))].
Proof. reflexivity. Qed.

Lemma issued_Revoke env fate d reason authorID ledger :
  issued (Revoke env fate d reason authorID) ledger = [].
Proof.
  unfold issued. destruct (present ledger d) eqn:H.
  - by rewrite run_Revoke_present.
  - by rewrite run_Revoke_missing.
Qed.

(** X10. No write operation issues a [deleteState]: whatever the ledger
    and the arguments, every stub call of [InitLedger], [Deployment],
    [Revoke] and [CreateAsset] is a [putState]; [Revoke], the one
    transaction written to delete, issues no call at all. *)
Theorem write_operations_never_delete (op : Operation) (ledger : gmap string string) :
  Forall is_put (issued (transaction op) ledger)
  /\ match op with
     | OpRevoke _ _ _ _ _ => issued (transaction op) ledger = []
     | _ => True
     end.
Proof.
  split.
  - destruct op as [|fate a c p d|env fate d r a|i a t ds]; cbn [transaction].
    + rewrite issued_InitLedger. by repeat constructor.
    + unfold issued. destruct (present ledger d) eqn:H.
      * rewrite run_Deployment_present by exact H. constructor.
      * rewrite run_Deployment_absent by exact H. by repeat constructor.
    + rewrite issued_Revoke. constructor.
    + unfold issued. destruct (present ledger i) eqn:H.
      * rewrite run_CreateAsset_present by exact H. constructor.
      * rewrite run_CreateAsset_absent by exact H. by repeat constructor.
  - destruct op; [done|done| |done]. apply issued_Revoke.
Qed.

(** X11. [Revoke] never returns: on every ledger and for all arguments
    it throws, either its not-found error or the [ReferenceError] of its
    unbound key, it issues no stub call, and the ledger is as it was. *)
Theorem Revoke_never_returns
    (env : Entropy) (fate : Detached) (ledger : gmap string string)
    (deploymentID reason authorID : string) :
  exists e,
    invoke (Revoke env fate deploymentID reason authorID) ledger = (Thrown e, ledger)
    /\ (e = NotFound "The does not exist, or already has been revoked"
        \/ e = ReferenceError "eploymentID")
    /\ issued (Revoke env fate deploymentID reason authorID) ledger = [].
Proof.
  unfold invoke, issued. destruct (present ledger deploymentID) eqn:H.
  - rewrite run_Revoke_present by exact H. eexists. split; [reflexivity|]. by split; [right|].
  - rewrite run_Revoke_missing by exact H. eexists. split; [reflexivity|]. by split; [left|].
Qed.

(** ** Reachable ledgers *)

Lemma encode_object_text fs : object_text (encode (JObject fs)).
Proof. eexists. reflexivity. Qed.

Lemma commit_lookup op ledger key value :
  commit op ledger !! key = Some value ->
  ledger !! key = Some value \/ object_text value.
Proof.
  unfold commit. destruct op as [|fate a c p d|env fate d r a|i a t ds]; cbn [transaction].
  - unfold invoke. rewrite run_InitLedger. cbn [snd worldState].
    rewrite lookup_insert. case_decide; [|by left].
    intros [= <-]. right. apply encode_object_text.
  - destruct (present ledger d) eqn:H.
    + rewrite commit_Deployment_present by exact H. by left.
    + rewrite commit_Deployment_absent by exact H. cbn [snd].
      rewrite lookup_insert. case_decide; [|by left].
      intros [= <-]. right. destruct fate; apply encode_object_text.
  - unfold invoke. destruct (present ledger d) eqn:H.
    + rewrite run_Revoke_present by exact H. by left.
    + rewrite run_Revoke_missing by exact H. by left.
  - rewrite invoke_CreateAsset. destruct (present ledger i); cbn [snd]; [by left|].
    rewrite lookup_insert. case_decide; [|by left].
    intros [= <-]. right. apply encode_object_text.
Qed.

Lemma reachable_object_texts ledger :
  reachable ledger -> forall key value, ledger !! key = Some value -> object_text value.
Proof.
  induction 1 as [|ledger op Hr IH]; intros key value Hk; [by rewrite lookup_empty in Hk|].
  destruct (commit_lookup _ _ _ _ Hk) as [Hold|Hnew]; [by eapply IH|exact Hnew].
Qed.

(** X12. In every ledger the write operations can reach from the empty
    one, every stored value is the text of an object: it opens with a
    brace and is never the empty buffer.  So on such ledgers the existence
    checks answer true exactly for the keys that are stored. *)
Theorem reachable_values_are_object_texts (ledger : gmap string string) :
  reachable ledger ->
  (forall key value, ledger !! key = Some value -> object_text value)
  /\ (forall key,
        fst (invoke (ValidateDeployment key) ledger) = Returned true
        <-> is_Some (ledger !! key)).
Proof.
  intros Hr. pose proof (reachable_object_texts ledger Hr) as Hobj.
  split; [exact Hobj|].
  intros key. rewrite invoke_ValidateDeployment. unfold present. split.
  - destruct (ledger !! key) as [value|]; [by eexists|]. cbn. discriminate.
  - intros [value Hk]. rewrite Hk. destruct (Hobj _ _ Hk) as [rest ->]. reflexivity.
Qed.

Lemma reachable_values_are_object_texts_witness :
  (forall key value, ledger_with_D1 !! key = Some value -> object_text value)
  /\ (forall key,
        fst (invoke (ValidateDeployment key) ledger_with_D1) = Returned true
        <-> is_Some (ledger_with_D1 !! key)).
Proof.
  apply (reachable_values_are_object_texts ledger_with_D1).
  apply reachable_commit, reachable_empty.
Defined.

(** ** Listings on reachable ledgers *)

Lemma parse_members_object fuel acc s v r :
  parse_members fuel acc s = Some (v, r) -> exists fs, v = JObject fs.
Proof.
  revert acc s. induction fuel as [|fuel IH]; intros acc s; [discriminate|].
  cbn [parse_members].
  repeat (case_match; try discriminate).
  all: try (intros [= <- <-]; by eexists).
  apply IH.
Qed.

Lemma parse_value_brace fuel rest :
  parse_value (S fuel) (String "{" rest)
  = match skip_ws rest with
    | String c r =>
        if Ascii.eqb c "}" then Some (JObject [], r)
        else parse_members fuel [] (String c r)
    | EmptyString => None
    end.
Proof. reflexivity. Qed.

(** A text that opens with a brace parses to an object or not at all. *)
Lemma parse_object_text value :
  object_text value ->
  JSON_parse value = None \/ exists fs, JSON_parse value = Some (JObject fs).
Proof.
  intros [rest ->]. unfold JSON_parse.
  replace (2 * String.length (String "{" rest) + 2) with (S (2 * String.length rest + 3))
    by (cbn [String.length]; lia).
  rewrite parse_value_brace.
  destruct (skip_ws rest) as [|c r] eqn:E; [by left|].
  destruct (Ascii.eqb c "}").
  - destruct (skip_ws r); [right; by eexists|by left].
  - destruct (parse_members _ _ _) as [[v r']|] eqn:P; [|by left].
    apply parse_members_object in P as [fs ->].
    destruct (skip_ws r'); [right; by eexists|by left].
Qed.

Lemma object_text_not_null value :
  object_text value -> is_null (parse_or_raw value) = false.
Proof.
  intros H. unfold parse_or_raw.
  destruct (parse_object_text value H) as [->|[fs ->]]; reflexivity.
Qed.

Lemma no_null_on_reachable ledger :
  reachable ledger ->
  existsb is_null (map (fun kv => parse_or_raw (snd kv)) (scan ledger)) = false.
Proof.
  intros Hr. apply not_true_is_false. intros H.
  apply existsb_exists in H as (v & Hin & Hnull).
  apply in_map_iff in Hin as ([key value] & <- & Hin).
  apply list_elem_of_In, elem_of_scan in Hin.
  rewrite object_text_not_null in Hnull by (by eapply reachable_object_texts).
  discriminate.
Qed.

Lemma invoke_listing name ledger :
  invoke (iterator ← getStateByRange EmptyString EmptyString; collect name iterator) ledger
  = if existsb is_null (map (fun kv => parse_or_raw (snd kv)) (scan ledger))
    then (Thrown (TypeError "Cannot read properties of null"), ledger)
    else (Returned (filter (fun r => is_Some (field name r))
                      (map (fun kv => parse_or_raw (snd kv)) (scan ledger))), ledger).
Proof.
  unfold invoke. rewrite run_listing. cbn [worldState].
  by destruct (existsb is_null _).
Qed.

(** X13. On every reachable ledger both listings return: no value the
    contract writes parses to [null], the one case in which
    [GetAllRevocations] and [GetAllTransactionLogs] throw.  What they
    return are the scanned records that have the identifying property. *)
Theorem listings_return_on_reachable_ledgers (ledger : gmap string string) :
  reachable ledger ->
  let scanned := map (fun kv => parse_or_raw (snd kv)) (scan ledger) in
  fst (invoke GetAllRevocations_results ledger)
  = Returned (filter (fun r => is_Some (field "RevocationID" r)) scanned)
  /\ fst (invoke GetAllTransactionLogs_results ledger)
     = Returned (filter (fun r => is_Some (field "transactionID" r)) scanned).
Proof.
  intros Hr scanned. unfold GetAllRevocations_results, GetAllTransactionLogs_results.
  rewrite !invoke_listing, no_null_on_reachable by exact Hr. done.
Qed.

Lemma listings_return_on_reachable_ledgers_witness :
  fst (invoke GetAllRevocations_results ledger_with_D1)
  = Returned (filter (fun r => is_Some (field "RevocationID" r))
                (map (fun kv => parse_or_raw (snd kv)) (scan ledger_with_D1)))
  /\ fst (invoke GetAllTransactionLogs_results ledger_with_D1)
     = Returned (filter (fun r => is_Some (field "transactionID" r))
                   (map (fun kv => parse_or_raw (snd kv)) (scan ledger_with_D1))).
Proof.
  apply (listings_return_on_reachable_ledgers ledger_with_D1).
  apply reachable_commit, reachable_empty.
Defined.

(** X14. [GetAllTransactionLogs] on any state of the keyspace: the records
    it returns are exactly the scanned records that have a
    [transactionID]; unparseable values are kept as raw text and left
    out.  It throws, with a [TypeError], exactly when a stored value is the
    JSON text [null]. *)
Theorem GetAllTransactionLogs_only_records_with_transactionID
    (ledger : gmap string string) :
  let scanned := map (fun kv => parse_or_raw (snd kv)) (scan ledger) in
  match fst (invoke GetAllTransactionLogs_results ledger) with
  | Returned allResults =>
      existsb is_null scanned = false
      /\ allResults = filter (fun r => is_Some (field "transactionID" r)) scanned
      /\ Forall (fun r => is_Some (field "transactionID" r)) allResults
      /\ fst (invoke GetAllTransactionLogs ledger)
         = Returned (JSON_stringify (JArray allResults))
  | Thrown e =>
      e = TypeError "Cannot read properties of null"
      /\ existsb is_null scanned = true
      /\ fst (invoke GetAllTransactionLogs ledger) = Thrown e
  end.
Proof.
  intros scanned.
  assert (Hstr : fst (invoke GetAllTransactionLogs ledger)
                 = match fst (invoke GetAllTransactionLogs_results ledger) with
                   | Returned rs => Returned (JSON_stringify (JArray rs))
                   | Thrown e => Thrown e
                   end).
  { unfold GetAllTransactionLogs, invoke, mbind, Tx_bind.
    destruct (GetAllTransactionLogs_results _) as [[rs|e] st]; reflexivity. }
  rewrite Hstr. unfold GetAllTransactionLogs_results. rewrite invoke_listing.
  fold scanned. destruct (existsb is_null scanned) eqn:E; cbn [fst]; [done|].
  repeat apply conj; try reflexivity.
  apply Forall_forall. intros r Hr. by apply list_elem_of_filter in Hr as [? _].
Qed.

(** ** Reading back what the contract encodes *)

Lemma app_string_assoc (a b c : string) : (a +:+ b) +:+ c = a +:+ (b +:+ c).
Proof.
  induction a as [|x a IH]; [reflexivity|].
  change (String x ((a +:+ b) +:+ c) = String x (a +:+ (b +:+ c))). by rewrite IH.
Qed.

Lemma length_app_string (a b : string) :
  String.length (a +:+ b) = String.length a + String.length b.
Proof.
  induction a as [|x a IH]; [reflexivity|].
  change (S (String.length (a +:+ b)) = S (String.length a + String.length b)).
  by rewrite IH.
Qed.

Lemma units_to_string_cons_low (cp : N) (us : list (ascii + N)) :
  is_high_surrogate cp = false ->
  units_to_string (inr cp :: us) = utf8 cp +:+ units_to_string us.
Proof. intros H. cbn [units_to_string]. destruct us as [|[a|lo] us']; by rewrite ?H. Qed.

(** One escaped character is scanned back to the character. *)
Lemma scan_escape_char (c : ascii) (text : string) us rest :
  scan_string text = Some (us, rest) ->
  exists u, scan_string (escape_char c +:+ text) = Some (u :: us, rest)
            /\ units_to_string (u :: us) = String c (units_to_string us).
Proof.
  intros H.
  destruct c as [[] [] [] [] [] [] [] []];
    (eexists; split;
     [ match goal with
       | |- context [escape_char ?c +:+ ?t] =>
           let e := eval vm_compute in (escape_char c) in
           let r := eval cbv [append] in (e +:+ t) in
           change (escape_char c +:+ t) with r
       end;
       cbn; rewrite H; reflexivity
     | first [ reflexivity | by rewrite units_to_string_cons_low ] ]).
Qed.

(** The escaped text of a string, followed by the closing quote, is
    scanned back to the string. *)
Lemma scan_escape (s rest : string) :
  exists us, scan_string (escape s +:+ String "034" rest) = Some (us, rest)
             /\ units_to_string us = s.
Proof.
  induction s as [|c s (us & Hscan & Hus)].
  - exists []. split; reflexivity.
  - cbn [escape]. rewrite app_string_assoc.
    destruct (scan_escape_char c _ _ _ Hscan) as (u & Hu & Hstr).
    exists (u :: us). split; [exact Hu|]. by rewrite Hstr, Hus.
Qed.

Lemma quote_app (s rest : string) :
  quote s +:+ rest = String "034" (escape s +:+ String "034" rest).
Proof. unfold quote, dquote. by rewrite !app_string_assoc. Qed.

Lemma parse_value_quoted fuel (s rest : string) :
  parse_value (S fuel) (quote s +:+ rest) = Some (JString s, rest).
Proof.
  rewrite quote_app.
  change (parse_value (S fuel) (String "034" (escape s +:+ String "034" rest)))
    with (match scan_string (escape s +:+ String "034" rest) with
          | Some (us, r) => Some (JString (units_to_string us), r)
          | None => None
          end).
  destruct (scan_escape s rest) as (us & -> & ->). reflexivity.
Qed.

(** One member, key and string value, is parsed and assigned. *)
Lemma parse_members_member fuel acc (k v rest : string) :
  parse_members (S (S fuel)) acc (quote k +:+ ":" +:+ quote v +:+ rest)
  = match skip_ws rest with
    | String c r =>
        if Ascii.eqb c ","
        then parse_members (S fuel) (set_field k (JString v) acc) r
        else if Ascii.eqb c "}" then Some (JObject (set_field k (JString v) acc), r)
        else None
    | EmptyString => None
    end.
Proof.
  rewrite quote_app.
  change (parse_members (S (S fuel)) acc
            (String "034" (escape k +:+ String "034" (":" +:+ quote v +:+ rest))))
    with (match scan_string (escape k +:+ String "034" (":" +:+ quote v +:+ rest)) with
          | None => None
          | Some (us, r1) =>
              match skip_ws r1 with
              | EmptyString => None
              | String colon r2 =>
                  if negb (Ascii.eqb colon ":") then None else
                  match parse_value (S fuel) r2 with
                  | None => None
                  | Some (x, r3) =>
                      let acc' := set_field (units_to_string us) x acc in
                      match skip_ws r3 with
                      | String c r4 =>
                          if Ascii.eqb c "," then parse_members (S fuel) acc' r4
                          else if Ascii.eqb c "}" then Some (JObject acc', r4)
                          else None
                      | EmptyString => None
                      end
                  end
              end
          end).
  destruct (scan_escape k (":" +:+ quote v +:+ rest)) as (us & -> & ->).
  change (skip_ws (":" +:+ quote v +:+ rest)) with (String ":" (quote v +:+ rest)).
  change (negb (Ascii.eqb ":" ":")) with false. cbv iota.
  rewrite parse_value_quoted. reflexivity.
Qed.

Lemma members_text_cons k v kv kvs :
  members_text ((k, v) :: kv :: kvs)
  = quote k +:+ ":" +:+ quote v +:+ String "," (members_text (kv :: kvs)).
Proof.
  unfold members_text. cbn [map join fst snd]. by rewrite !app_string_assoc.
Qed.

Lemma members_text_one k v : members_text [(k, v)] = quote k +:+ ":" +:+ quote v.
Proof. reflexivity. Qed.

(** The members of a flat object, up to the closing brace, are parsed
    into the object they spell. *)
Lemma parse_members_text kvs : forall fuel acc rest,
  kvs <> [] -> length kvs < fuel ->
  parse_members fuel acc (members_text kvs +:+ String "}" rest)
  = Some (JObject (assign_all kvs acc), rest).
Proof.
  induction kvs as [|[k v] kvs IH]; intros fuel acc rest Hne Hfuel; [done|].
  destruct fuel as [|[|fuel]]; [cbn in Hfuel; lia..|].
  destruct kvs as [|kv kvs].
  - rewrite members_text_one, !app_string_assoc, parse_members_member. reflexivity.
  - rewrite members_text_cons, !app_string_assoc, parse_members_member.
    change (skip_ws (String "," (members_text (kv :: kvs)) +:+ String "}" rest))
      with (String "," (members_text (kv :: kvs) +:+ String "}" rest)).
    change (Ascii.eqb "," ",") with true. cbv iota.
    rewrite IH; [reflexivity|done|cbn [length] in *; lia].
Qed.

Lemma length_members_text kvs : length kvs <= String.length (members_text kvs).
Proof.
  induction kvs as [|[k v] kvs IH]; [cbn; lia|].
  destruct kvs as [|kv kvs].
  - rewrite members_text_one, quote_app. cbn [length String.length]. lia.
  - rewrite members_text_cons, quote_app. cbn [length String.length] in *.
    rewrite !length_app_string. cbn [String.length]. rewrite !length_app_string.
    cbn [String.length]. lia.
Qed.

(** The text of a flat object. *)
Lemma stringify_flat fs kvs :
  Forall2 (fun f kv => fst f = fst kv /\ scalar_text (snd f) = Some (snd kv)) fs kvs ->
  JSON_stringify (JObject fs) = String "{" (members_text kvs +:+ String "}" EmptyString).
Proof.
  intros H. cbn [JSON_stringify].
  change ("{" +:+ ?x) with (String "{" x). do 2 f_equal. unfold members_text. f_equal.
  induction H as [|[k x] [k' s] fs kvs [Hk Hx] H IH]; [reflexivity|].
  cbn [map fst snd] in *. rewrite IH, Hk. do 3 f_equal.
  destruct x; try discriminate; by injection Hx as <-.
Qed.

(** The round trip of a flat record: its text parses to the object with
    the same keys whose values are the texts of its scalars. *)
Lemma parse_flat fs kvs :
  Forall2 (fun f kv => fst f = fst kv /\ scalar_text (snd f) = Some (snd kv)) fs kvs ->
  kvs <> [] ->
  JSON_parse (JSON_stringify (JObject fs)) = Some (JObject (assign_all kvs [])).
Proof.
  intros H Hne. rewrite (stringify_flat fs kvs H). unfold JSON_parse.
  pose proof (length_members_text kvs) as Hlen.
  set (text := members_text kvs +:+ String "}" EmptyString).
  assert (Htext : length kvs <= String.length text)
    by (unfold text; rewrite length_app_string; lia).
  replace (2 * String.length (String "{" text) + 2)
    with (S (2 * String.length text + 3)) by (cbn [String.length]; lia).
  rewrite parse_value_brace.
  destruct kvs as [|[k v] kvs]; [done|].
  assert (Hhead : exists r, text = String "034" r).
  { unfold text. destruct kvs as [|kv kvs].
    - rewrite members_text_one, !app_string_assoc, quote_app. by eexists.
    - rewrite members_text_cons, !app_string_assoc, quote_app. by eexists. }
  destruct Hhead as [r Hr]. rewrite Hr.
  change (skip_ws (String "034" r)) with (String "034" r).
  change (Ascii.eqb "034" "}") with false. cbv iota.
  rewrite <- Hr. unfold text in *.
  rewrite parse_members_text; [reflexivity|done|lia].
Qed.

Lemma parse_transactionLog ID authorID time description :
  JSON_parse (encode (transactionLog_object ID authorID time description))
  = Some (JObject [("authorID", JString authorID);
                   ("description", JString description);
                   ("time", JString (toISOString time));
                   ("transactionID", JString ID)]).
Proof.
  change (encode (transactionLog_object ID authorID time description))
    with (JSON_stringify (JObject [("authorID", JString authorID);
                                   ("description", JString description);
                                   ("time", JDate time);
                                   ("transactionID", JString ID)])).
  rewrite (parse_flat _ [("authorID", authorID); ("description", description);
                         ("time", toISOString time); ("transactionID", ID)]);
    [reflexivity|by repeat constructor|done].
Qed.

Lemma parse_deployment deploymentID comment authorID payload :
  JSON_parse (encode (deployment_object deploymentID comment authorID payload))
  = Some (JObject [("authorID", JString authorID);
                   ("comment", JString comment);
                   ("deploymentID", JString deploymentID);
                   ("payload", JString payload)]).
Proof.
  change (encode (deployment_object deploymentID comment authorID payload))
    with (JSON_stringify (JObject [("authorID", JString authorID);
                                   ("comment", JString comment);
                                   ("deploymentID", JString deploymentID);
                                   ("payload", JString payload)])).
  rewrite (parse_flat _ [("authorID", authorID); ("comment", comment);
                         ("deploymentID", deploymentID); ("payload", payload)]);
    [reflexivity|by repeat constructor|done].
Qed.

Lemma parse_Revocation (r : Revocation) :
  JSON_parse (encode (Revocation_object r))
  = Some (JObject [("RevocationID", JString (RevocationID r));
                   ("reason", JString (reason r));
                   ("targetDeploymentID", JString (targetDeploymentID r))]).
Proof.
  change (encode (Revocation_object r))
    with (JSON_stringify (JObject [("RevocationID", JString (RevocationID r));
                                   ("reason", JString (reason r));
                                   ("targetDeploymentID", JString (targetDeploymentID r))])).
  rewrite (parse_flat _ [("RevocationID", RevocationID r); ("reason", reason r);
                         ("targetDeploymentID", targetDeploymentID r)]);
    [reflexivity|by repeat constructor|done].
Qed.

(** X15. What the contract stores can be parsed back, whatever
    characters the arguments hold: the encoding of a deployment record, of
    a log entry and of a revocation parses to the object with the same
    fields in sorted order, each holding the string it was built from, the
    time of a log entry as its ISO text. *)
Theorem stored_records_parse_back
    (deploymentID comment authorID payload ID logAuthor description : string)
    (time : Z) (r : Revocation) :
  JSON_parse (encode (deployment_object deploymentID comment authorID payload))
  = Some (JObject [("authorID", JString authorID);
                   ("comment", JString comment);
                   ("deploymentID", JString deploymentID);
                   ("payload", JString payload)])
  /\ JSON_parse (encode (transactionLog_object ID logAuthor time description))
     = Some (JObject [("authorID", JString logAuthor);
                      ("description", JString description);
                      ("time", JString (toISOString time));
                      ("transactionID", JString ID)])
  /\ JSON_parse (encode (Revocation_object r))
     = Some (JObject [("RevocationID", JString (RevocationID r));
                      ("reason", JString (reason r));
                      ("targetDeploymentID", JString (targetDeploymentID r))]).
Proof.
  repeat apply conj;
    [apply parse_deployment|apply parse_transactionLog|apply parse_Revocation].
Qed.

(** ** How a write shows in the listings *)

#[local] Instance entry_le_trans : Transitive entry_le.
Proof. intros a b c. unfold entry_le. apply transitivity. Qed.

#[local] Instance entry_le_total : Total entry_le.
Proof. intros a b. unfold entry_le. apply total, _. Qed.

(** Writing under a key that is not stored inserts one entry in the scan
    and moves no other. *)
Lemma scan_insert (ledger : gmap string string) key value :
  ledger !! key = None ->
  exists l1 l2 : list (string * string),
    scan ledger = (l1 ++ l2)%list
    /\ scan (<[key := value]> ledger) = (l1 ++ (key, value) :: l2)%list.
Proof.
  intros Hk.
  assert (Hin : (key, value) ∈ scan (<[key := value]> ledger))
    by (apply elem_of_scan, lookup_insert_eq).
  apply list_elem_of_split in Hin as (l1 & l2 & Hsplit).
  exists l1, l2. split; [|exact Hsplit].
  assert (Hsorted : StronglySorted entry_le (l1 ++ (key, value) :: l2)%list).
  { rewrite <- Hsplit. apply StronglySorted_merge_sort; apply _. }
  assert (Hperm : (l1 ++ l2)%list ≡ₚ map_to_list ledger).
  { apply (Permutation_cons_inv (a := (key, value))).
    rewrite Permutation_middle, <- Hsplit. unfold scan.
    rewrite merge_sort_Permutation. by apply map_to_list_insert. }
  apply (StronglySorted_unique_strong entry_le).
  - intros [k1 v1] [k2 v2] H1 H2 H12 H21.
    assert (k1 = k2) as <- by (by apply (anti_symm String.le)).
    apply elem_of_scan in H1. rewrite Hperm in H2. apply elem_of_map_to_list in H2.
    congruence.
  - apply StronglySorted_merge_sort; apply _.
  - apply StronglySorted_app in Hsorted as (Hcross & Hl1 & Hl2).
    apply StronglySorted_app. split; [|split; [exact Hl1|]].
    + intros x1 x2 Hx1 Hx2. apply Hcross; [exact Hx1|by right].
    + by apply StronglySorted_inv in Hl2 as [? _].
  - unfold scan. by rewrite merge_sort_Permutation, Hperm.
Qed.

Lemma listed_app name (l1 l2 : list (string * string)) :
  filter (fun r => is_Some (field name r))
    (map (fun kv => parse_or_raw (snd kv)) (l1 ++ l2)%list)
  = (filter (fun r => is_Some (field name r)) (map (fun kv => parse_or_raw (snd kv)) l1)
     ++ filter (fun r => is_Some (field name r)) (map (fun kv => parse_or_raw (snd kv)) l2))%list.
Proof. by rewrite map_app, filter_app. Qed.

Lemma absent_on_reachable ledger key :
  reachable ledger -> present ledger key = false -> ledger !! key = None.
Proof.
  intros Hr Hp. destruct (ledger !! key) as [value|] eqn:Hk; [|done].
  destruct (reachable_object_texts _ Hr _ _ Hk) as [rest ->].
  unfold present in Hp. rewrite Hk in Hp. discriminate Hp.
Qed.

(** The listing under [name] after a write of [value] under a key that
    was not stored, on a reachable ledger. *)
Lemma listing_after_insert name ledger key value record :
  reachable ledger -> reachable (<[key := value]> ledger) ->
  ledger !! key = None ->
  parse_or_raw value = record ->
  exists before after : list JValue,
    fst (invoke (iterator ← getStateByRange EmptyString EmptyString;
                 collect name iterator) ledger)
    = Returned (before ++ after)%list
    /\ fst (invoke (iterator ← getStateByRange EmptyString EmptyString;
                    collect name iterator) (<[key := value]> ledger))
       = Returned (before ++ (if decide (is_Some (field name record))
                              then [record] else []) ++ after)%list.
Proof.
  intros Hr Hr' Hk Hrec.
  destruct (scan_insert ledger key value Hk) as (l1 & l2 & H1 & H2).
  rewrite !invoke_listing, !no_null_on_reachable by assumption. cbn [fst].
  rewrite H1, H2, !listed_app. do 2 eexists. split; [reflexivity|].
  do 2 f_equal. cbn [map snd]. rewrite Hrec.
  case_decide.
  - by rewrite filter_cons_True.
  - by rewrite filter_cons_False.
Qed.

Lemma parse_or_raw_transactionLog ID authorID time description :
  parse_or_raw (encode (transactionLog_object ID authorID time description))
  = JObject [("authorID", JString authorID);
             ("description", JString description);
             ("time", JString (toISOString time));
             ("transactionID", JString ID)].
Proof. unfold parse_or_raw. by rewrite parse_transactionLog. Qed.

Lemma parse_or_raw_deployment deploymentID comment authorID payload :
  parse_or_raw (encode (deployment_object deploymentID comment authorID payload))
  = JObject [("authorID", JString authorID);
             ("comment", JString comment);
             ("deploymentID", JString deploymentID);
             ("payload", JString payload)].
Proof. unfold parse_or_raw. by rewrite parse_deployment. Qed.

Lemma commit_CreateAsset_absent ID authorID time description ledger :
  present ledger ID = false ->
  commit (OpCreateAsset ID authorID time description) ledger
  = <[ID := encode (transactionLog_object ID authorID time description)]> ledger.
Proof. intros H. unfold commit. cbn [transaction]. by rewrite invoke_CreateAsset, H. Qed.

(** X16. On a reachable ledger, [CreateAsset] under a free identifier
    shows in the listings as one new log entry: [GetAllTransactionLogs]
    returns what it returned before with the entry inserted, carrying the
    identifier, author, description and the ISO text of the time given;
    [GetAllRevocations] returns what it returned before. *)
Theorem CreateAsset_shows_in_the_log_listing
    (ledger : gmap string string) (ID authorID : string) (time : Z) (description : string) :
  reachable ledger ->
  fst (invoke (TransactionExists ID) ledger) = Returned false ->
  (exists before after : list JValue,
     fst (invoke GetAllTransactionLogs_results ledger) = Returned (before ++ after)%list
     /\ fst (invoke GetAllTransactionLogs_results
               (commit (OpCreateAsset ID authorID time description) ledger))
        = Returned (before
                    ++ JObject [("authorID", JString authorID);
                                ("description", JString description);
                                ("time", JString (toISOString time));
                                ("transactionID", JString ID)] :: after)%list)
  /\ fst (invoke GetAllRevocations_results
            (commit (OpCreateAsset ID authorID time description) ledger))
     = fst (invoke GetAllRevocations_results ledger).
Proof.
  intros Hr. rewrite invoke_TransactionExists. intros H.
  assert (Hp : present ledger ID = false) by congruence.
  pose proof (reachable_commit ledger (OpCreateAsset ID authorID time description) Hr) as Hr'.
  rewrite commit_CreateAsset_absent in * by exact Hp.
  pose proof (absent_on_reachable ledger ID Hr Hp) as Hk.
  split.
  - destruct (listing_after_insert "transactionID" ledger ID _ _ Hr Hr' Hk
                (parse_or_raw_transactionLog ID authorID time description))
      as (before & after & H1 & H2).
    exists before, after. split; [exact H1|].
    rewrite decide_True in H2 by (by eexists). exact H2.
  - destruct (listing_after_insert "RevocationID" ledger ID _ _ Hr Hr' Hk
                (parse_or_raw_transactionLog ID authorID time description))
      as (before & after & H1 & H2).
    rewrite decide_False in H2 by (by intros [??]).
    unfold GetAllRevocations_results. by rewrite H1, H2.
Qed.

Lemma CreateAsset_shows_in_the_log_listing_witness :
  (exists before after : list JValue,
     fst (invoke GetAllTransactionLogs_results ledger_with_D1) = Returned (before ++ after)%list
     /\ fst (invoke GetAllTransactionLogs_results
               (commit (OpCreateAsset "T1" "A1" date "audit") ledger_with_D1))
        = Returned (before
                    ++ JObject [("authorID", JString "A1");
                                ("description", JString "audit");
                                ("time", JString (toISOString date));
                                ("transactionID", JString "T1")] :: after)%list)
  /\ fst (invoke GetAllRevocations_results
            (commit (OpCreateAsset "T1" "A1" date "audit") ledger_with_D1))
     = fst (invoke GetAllRevocations_results ledger_with_D1).
Proof.
  apply (CreateAsset_shows_in_the_log_listing ledger_with_D1 "T1" "A1" date "audit").
  - apply reachable_commit, reachable_empty.
  - vm_compute. reflexivity.
Defined.

(** X17. On a reachable ledger, [Deployment] under a free key never
    changes what [GetAllRevocations] returns.  In the log listing it
    shows only when the write of the call that is not awaited settles,
    as one entry whose description is the comment; when that write is
    dropped, [GetAllTransactionLogs] returns what it returned before. *)
Theorem Deployment_in_the_listings
    (fate : Detached) (ledger : gmap string string)
    (authorID comment payload deploymentID : string) :
  reachable ledger ->
  fst (invoke (ValidateDeployment deploymentID) ledger) = Returned false ->
  fst (invoke GetAllRevocations_results
         (commit (OpDeployment fate authorID comment payload deploymentID) ledger))
  = fst (invoke GetAllRevocations_results ledger)
  /\ match fate with
     | Dropped =>
         fst (invoke GetAllTransactionLogs_results
                (commit (OpDeployment fate authorID comment payload deploymentID) ledger))
         = fst (invoke GetAllTransactionLogs_results ledger)
     | Settles =>
         exists before after : list JValue,
           fst (invoke GetAllTransactionLogs_results ledger)
           = Returned (before ++ after)%list
           /\ fst (invoke GetAllTransactionLogs_results
                     (commit (OpDeployment fate authorID comment payload deploymentID)
                        ledger))
              = Returned (before
                          ++ JObject [("authorID", JString authorID);
                                      ("description", JString comment);
                                      ("time", JString (toISOString date));
                                      ("transactionID", JString deploymentID)]
                             :: after)%list
     end.
Proof.
  intros Hr. rewrite invoke_ValidateDeployment. intros H.
  assert (Hp : present ledger deploymentID = false) by congruence.
  pose proof (reachable_commit ledger
                (OpDeployment fate authorID comment payload deploymentID) Hr) as Hr'.
  pose proof (absent_on_reachable ledger deploymentID Hr Hp) as Hk.
  unfold commit in *. cbn [transaction] in *.
  rewrite commit_Deployment_absent in * by exact Hp. cbn [snd] in *.
  unfold GetAllRevocations_results, GetAllTransactionLogs_results.
  destruct fate.
  - split.
    + destruct (listing_after_insert "RevocationID" ledger deploymentID _ _ Hr Hr' Hk
                  (parse_or_raw_transactionLog deploymentID authorID date comment))
        as (before & after & H1 & H2).
      rewrite decide_False in H2 by (by intros [??]). by rewrite H1, H2.
    + destruct (listing_after_insert "transactionID" ledger deploymentID _ _ Hr Hr' Hk
                  (parse_or_raw_transactionLog deploymentID authorID date comment))
        as (before & after & H1 & H2).
      exists before, after. split; [exact H1|].
      rewrite decide_True in H2 by (by eexists). exact H2.
  - split.
    + destruct (listing_after_insert "RevocationID" ledger deploymentID _ _ Hr Hr' Hk
                  (parse_or_raw_deployment deploymentID comment authorID payload))
        as (before & after & H1 & H2).
      rewrite decide_False in H2 by (by intros [??]). by rewrite H1, H2.
    + destruct (listing_after_insert "transactionID" ledger deploymentID _ _ Hr Hr' Hk
                  (parse_or_raw_deployment deploymentID comment authorID payload))
        as (before & after & H1 & H2).
      rewrite decide_False in H2 by (by intros [??]). by rewrite H1, H2.
Qed.

Lemma Deployment_in_the_listings_witness :
  fst (invoke GetAllRevocations_results
         (commit (OpDeployment Dropped "A2" "second" "bytes" "D2") ledger_with_D1))
  = fst (invoke GetAllRevocations_results ledger_with_D1)
  /\ fst (invoke GetAllTransactionLogs_results
            (commit (OpDeployment Dropped "A2" "second" "bytes" "D2") ledger_with_D1))
     = fst (invoke GetAllTransactionLogs_results ledger_with_D1).
Proof.
  apply (Deployment_in_the_listings Dropped ledger_with_D1 "A2" "second" "bytes" "D2").
  - apply reachable_commit, reachable_empty.
  - vm_compute. reflexivity.
Defined.

(** X18. On a reachable ledger, after [InitLedger] the listing
    [GetAllRevocations] returns and holds the seed revocation, with its
    three fields. *)
Theorem InitLedger_seed_is_listed (ledger : gmap string string) :
  reachable ledger ->
  exists allResults,
    fst (invoke GetAllRevocations_results (commit OpInitLedger ledger)) = Returned allResults
    /\ JObject [("RevocationID", JString "1");
                ("reason", JString "example");
                ("targetDeploymentID", JString "123")] ∈ allResults.
Proof.
  intros Hr.
  pose proof (reachable_commit ledger OpInitLedger Hr) as Hr'.
  unfold GetAllRevocations_results. rewrite invoke_listing, no_null_on_reachable by exact Hr'.
  eexists. split; [reflexivity|].
  apply list_elem_of_filter. split; [by eexists|].
  apply list_elem_of_In, in_map_iff.
  exists ("1", encode (Revocation_object
            {| targetDeploymentID := "123"; reason := "example"; RevocationID := "1" |})).
  split; [by vm_compute|].
  apply list_elem_of_In, elem_of_scan.
  unfold commit, invoke. cbn [transaction]. rewrite run_InitLedger. cbn [snd worldState].
  apply lookup_insert_eq.
Qed.

Lemma InitLedger_seed_is_listed_witness :
  exists allResults,
    fst (invoke GetAllRevocations_results (commit OpInitLedger ledger_with_D1))
    = Returned allResults
    /\ JObject [("RevocationID", JString "1");
                ("reason", JString "example");
                ("targetDeploymentID", JString "123")] ∈ allResults.
Proof.
  apply (InitLedger_seed_is_listed ledger_with_D1).
  apply reachable_commit, reachable_empty.
Defined.

(** ** The second copy of the contract *)

Lemma run_Part000_Deployment authorID comment payload d st :
  Part000.Deployment authorID comment payload d st
  = if present (worldState st) d
    then (Thrown (AlreadyExists ("The asset " +:+ d +:+ " already exists")), st)
    else (Returned tt,
          {| worldState :=
               <[d := encode (deployment_object d comment authorID payload)]> (worldState st);
             calls := calls st
                      ++ [PutState d (encode (deployment_object d comment authorID payload))] |}).
Proof.
  unfold Part000.Deployment, mbind, Tx_bind. rewrite run_ValidateDeployment.
  by destruct (present (worldState st) d).
Qed.

Lemma run_Part000_RevokeDeployment d st :
  Part000.RevokeDeployment d st
  = if present (worldState st) d
    then (Returned tt, {| worldState := delete d (worldState st);
                          calls := calls st ++ [DeleteState d] |})
    else (Thrown (NotFound ("Deployment with ID " +:+ d +:+ " does not exist")), st).
Proof.
  unfold Part000.RevokeDeployment, mbind, Tx_bind. rewrite run_ValidateDeployment.
  by destruct (present (worldState st) d).
Qed.

Lemma present_delete ledger key : present (delete key ledger) key = false.
Proof. unfold present. by rewrite lookup_delete_eq. Qed.

(** X19. In the copy without a log, [Deployment] under a free key issues
    the one write of the deployment record, and [GetDeploymentByID] reads
    back its canonical encoding; no other key changes. *)
Theorem Part000_Deployment_then_GetDeploymentByID
    (ledger : gmap string string) (authorID comment payload deploymentID : string) :
  fst (invoke (ValidateDeployment deploymentID) ledger) = Returned false ->
  invoke (Part000.Deployment authorID comment payload deploymentID) ledger
  = (Returned tt,
     <[deploymentID := encode (deployment_object deploymentID comment authorID payload)]>
       ledger)
  /\ issued (Part000.Deployment authorID comment payload deploymentID) ledger
     = [PutState deploymentID
          (encode (deployment_object deploymentID comment authorID payload))]
  /\ fst (invoke (GetDeploymentByID deploymentID)
            (snd (invoke (Part000.Deployment authorID comment payload deploymentID) ledger)))
     = Returned (encode (deployment_object deploymentID comment authorID payload)).
Proof.
  rewrite invoke_ValidateDeployment. intros H.
  assert (Hp : present ledger deploymentID = false) by congruence.
  unfold issued, invoke at 1 3. rewrite !run_Part000_Deployment. cbn [worldState].
  rewrite Hp. cbn [fst snd calls worldState app].
  repeat apply conj; try reflexivity.
  unfold invoke. rewrite run_GetDeploymentByID. cbn [worldState fst].
  by rewrite lookup_insert_eq.
Qed.

Lemma Part000_Deployment_then_GetDeploymentByID_witness :
  invoke (Part000.Deployment "A1" "hello" "payload" "D1") ∅
  = (Returned tt, <["D1" := encode (deployment_object "D1" "hello" "A1" "payload")]> ∅)
  /\ issued (Part000.Deployment "A1" "hello" "payload" "D1") ∅
     = [PutState "D1" (encode (deployment_object "D1" "hello" "A1" "payload"))]
  /\ fst (invoke (GetDeploymentByID "D1")
            (snd (invoke (Part000.Deployment "A1" "hello" "payload" "D1") ∅)))
     = Returned (encode (deployment_object "D1" "hello" "A1" "payload")).
Proof.
  apply (Part000_Deployment_then_GetDeploymentByID ∅ "A1" "hello" "payload" "D1").
  reflexivity.
Defined.

(** X20. [RevokeDeployment] of a key that is taken returns, issues the one
    [deleteState] of that key, and removes it: afterwards the existence
    check answers false and [GetDeploymentByID] throws not-found.  It does
    not ask what kind of record the key holds. *)
Theorem Part000_RevokeDeployment_deletes (ledger : gmap string string) (deploymentID : string) :
  fst (invoke (ValidateDeployment deploymentID) ledger) = Returned true ->
  invoke (Part000.RevokeDeployment deploymentID) ledger
  = (Returned tt, delete deploymentID ledger)
  /\ issued (Part000.RevokeDeployment deploymentID) ledger = [DeleteState deploymentID]
  /\ fst (invoke (ValidateDeployment deploymentID) (delete deploymentID ledger))
     = Returned false
  /\ fst (invoke (GetDeploymentByID deploymentID) (delete deploymentID ledger))
     = Thrown (NotFound ("The asset " +:+ deploymentID +:+ " does not exist")).
Proof.
  rewrite invoke_ValidateDeployment. intros H.
  assert (Hp : present ledger deploymentID = true) by congruence.
  unfold issued, invoke at 1. rewrite !run_Part000_RevokeDeployment. cbn [worldState].
  rewrite Hp. cbn [fst snd calls worldState app].
  repeat apply conj; try reflexivity.
  - rewrite invoke_ValidateDeployment. by rewrite present_delete.
  - unfold invoke. rewrite run_GetDeploymentByID. cbn [worldState fst].
    by rewrite lookup_delete_eq.
Qed.

Lemma Part000_RevokeDeployment_deletes_witness :
  invoke (Part000.RevokeDeployment "1") (snd (invoke Part000.InitLedger ∅))
  = (Returned tt, delete "1" (snd (invoke Part000.InitLedger ∅)))
  /\ issued (Part000.RevokeDeployment "1") (snd (invoke Part000.InitLedger ∅))
     = [DeleteState "1"]
  /\ fst (invoke (ValidateDeployment "1") (delete "1" (snd (invoke Part000.InitLedger ∅))))
     = Returned false
  /\ fst (invoke (GetDeploymentByID "1") (delete "1" (snd (invoke Part000.InitLedger ∅))))
     = Thrown (NotFound ("The asset " +:+ "1" +:+ " does not exist")).
Proof.
  apply (Part000_RevokeDeployment_deletes (snd (invoke Part000.InitLedger ∅)) "1").
  vm_compute. reflexivity.
Defined.

(** X21. [RevokeDeployment] twice: whatever the first call did, the second
    throws the not-found error naming the identifier, issues nothing and
    leaves the ledger as the first call left it.  A revoked deployment
    does not come back. *)
Theorem Part000_RevokeDeployment_twice_NotFound
    (ledger : gmap string string) (deploymentID : string) :
  invoke (Part000.RevokeDeployment deploymentID)
    (snd (invoke (Part000.RevokeDeployment deploymentID) ledger))
  = (Thrown (NotFound ("Deployment with ID " +:+ deploymentID +:+ " does not exist")),
     snd (invoke (Part000.RevokeDeployment deploymentID) ledger))
  /\ issued (Part000.RevokeDeployment deploymentID)
       (snd (invoke (Part000.RevokeDeployment deploymentID) ledger)) = [].
Proof.
  assert (Hp : present (snd (invoke (Part000.RevokeDeployment deploymentID) ledger))
                 deploymentID = false).
  { unfold invoke. rewrite run_Part000_RevokeDeployment. cbn [worldState].
    destruct (present ledger deploymentID) eqn:H; cbn [snd worldState]; [|exact H].
    apply present_delete. }
  unfold issued, invoke at 1. rewrite !run_Part000_RevokeDeployment. cbn [worldState].
  by rewrite Hp.
Qed.

(** X22. [Deployment] of the copy without a log followed by
    [RevokeDeployment] under the same key leaves the ledger without that
    key; when the key was not stored before, the ledger is as it was. *)
Theorem Part000_Deployment_then_RevokeDeployment
    (ledger : gmap string string) (authorID comment payload deploymentID : string) :
  fst (invoke (ValidateDeployment deploymentID) ledger) = Returned false ->
  invoke (Part000.RevokeDeployment deploymentID)
    (snd (invoke (Part000.Deployment authorID comment payload deploymentID) ledger))
  = (Returned tt, delete deploymentID ledger)
  /\ (ledger !! deploymentID = None -> delete deploymentID ledger = ledger).
Proof.
  rewrite invoke_ValidateDeployment. intros H.
  assert (Hp : present ledger deploymentID = false) by congruence.
  split; [|apply delete_id].
  unfold invoke. rewrite run_Part000_Deployment. cbn [worldState]. rewrite Hp.
  cbn [snd worldState]. rewrite run_Part000_RevokeDeployment. cbn [worldState].
  rewrite present_insert by apply encode_object_not_empty. cbn [worldState].
  by rewrite delete_insert_eq.
Qed.

Lemma Part000_Deployment_then_RevokeDeployment_witness :
  invoke (Part000.RevokeDeployment "D1")
    (snd (invoke (Part000.Deployment "A1" "hello" "payload" "D1") ∅))
  = (Returned tt, delete "D1" ∅)
  /\ ((∅ : gmap string string) !! "D1" = None -> delete "D1" (∅ : gmap string string) = ∅).
Proof.
  apply (Part000_Deployment_then_RevokeDeployment ∅ "A1" "hello" "payload" "D1").
  reflexivity.
Defined.

(** X23. [GetAllRevocations] of the copy without a filter always returns,
    and returns one record for every stored key, whatever its kind: the
    parsed value, or the raw text when it does not parse. *)
Theorem Part000_GetAllRevocations_returns_every_record (ledger : gmap string string) :
  fst (invoke Part000.GetAllRevocations_results ledger)
  = Returned (map (fun kv => parse_or_raw (snd kv)) (scan ledger))
  /\ length (map (fun kv => parse_or_raw (snd kv)) (scan ledger)) = size ledger
  /\ (forall key value, (key, value) ∈ scan ledger <-> ledger !! key = Some value).
Proof.
  repeat apply conj.
  - unfold Part000.GetAllRevocations_results, invoke, mbind, Tx_bind.
    by rewrite run_getStateByRange_full.
  - rewrite length_map. unfold scan. rewrite merge_sort_Permutation.
    apply length_map_to_list.
  - apply elem_of_scan.
Qed.
